(** * The [typescript] cleanup pass of tedium

  A shallow embedding of [src/cleanup-passes/typescript.ts]: the version
  resolver [getLatestGeneratorVersion] with its module-level cache, and
  [typescriptPass], a straight-line sequence of file-system calls,
  subprocess invocations and one version-control commit.

  The pass is written in a small state-and-exception monad over a [World]
  holding the files, the module-level cache and the trace of external calls
  made so far.  External collaborators (the semver library, the JSON and
  YAML codecs, the child processes, the version-control status) are the
  fields of the class [Externals]; every theorem holds for all of them.

  Conventions.  A JavaScript string is a [string]; the pattern and the
  suffix and substring tests of the pass only look at ASCII characters.  A
  JavaScript object used as a map is a [gmap string string], and an optional
  property is an [option].  A rejected promise and a [throw] are both
  [Thrown]; the world reached so far is kept, since nothing is rolled back.
  Writing and removing a file are taken to succeed; a subprocess, the
  status read and the commit may be rejected. *)

From Stdlib Require Import Ascii.
From stdpp Require Import gmap strings list.

(** ** JavaScript string operations used by the pass *)

Module JsString.

(** The character [U+0022], which the pass embeds in the Travis command. *)
Definition dquote : string := String "034"%char "".

Fixpoint startsWith (s p : string) : bool :=
  match p, s with
  | EmptyString, _ => true
  | String _ _, EmptyString => false
  | String c p', String d s' => if decide (c = d) then startsWith s' p' else false
  end.

(** [s.endsWith(suffix)]: some tail of [s] is [suffix]. *)
Fixpoint endsWith (s suffix : string) : bool :=
  if decide (s = suffix) then true
  else match s with
       | EmptyString => false
       | String _ s' => endsWith s' suffix
       end.

(** [s.includes(sub)]: [sub] starts at some position of [s]. *)
Fixpoint includes (s sub : string) : bool :=
  if startsWith s sub then true
  else match s with
       | EmptyString => false
       | String _ s' => includes s' sub
       end.

(** [s === t] on strings. *)
Definition strictEq (s t : string) : bool := bool_decide (s = t).

(** [prefix] removed from the front of [s], when it is there. *)
Fixpoint stripPrefix (prefix s : string) : option string :=
  match prefix, s with
  | EmptyString, _ => Some s
  | String _ _, EmptyString => None
  | String c p', String d s' => if decide (c = d) then stripPrefix p' s' else None
  end.

End JsString.

(** ** The pattern [/latest: '(\d+\.\d+\.\d+)'/]

  [\d] and [\.] match disjoint characters, so at a fixed start position the
  greedy [\d+] can only succeed with the maximal run of digits: giving back
  a digit leaves a digit where [\.] or the quote is required.  The match at
  a position is therefore deterministic, and [String.prototype.match] with a
  non-global pattern returns the leftmost position that matches. *)

Module Regex.
Import JsString.

Definition isDigit (c : ascii) : bool :=
  match Ascii.is_nat c with Some _ => true | None => false end.

(** The maximal run of digits at the front of [s], and what follows it. *)
Fixpoint digits (s : string) : string * string :=
  match s with
  | EmptyString => (EmptyString, EmptyString)
  | String c s' =>
      if isDigit c
      then let '(d, r) := digits s' in (String c d, r)
      else (EmptyString, s)
  end.

(** [\d+] followed by the literal [stop]. *)
Definition digitsThen (stop : string) (s : string) : option (string * string) :=
  let '(d, r) := digits s in
  match d with
  | EmptyString => None
  | _ => match stripPrefix stop r with
         | Some r' => Some (d, r')
         | None => None
         end
  end.

(** The whole pattern anchored at the front of [s]; the result is group 1. *)
Definition matchHere (s : string) : option string :=
  match stripPrefix "latest: '" s with
  | None => None
  | Some r0 =>
      match digitsThen "." r0 with
      | None => None
      | Some (a, r1) =>
          match digitsThen "." r1 with
          | None => None
          | Some (b, r2) =>
              match digitsThen "'" r2 with
              | None => None
              | Some (c, _) => Some (a +:+ "." +:+ b +:+ "." +:+ c)
              end
          end
      end
  end.

(** [stdout.match(/latest: '(\d+\.\d+\.\d+)'/)], reduced to [match[1]]. *)
Fixpoint matchLatest (stdout : string) : option string :=
  match matchHere stdout with
  | Some g => Some g
  | None => match stdout with
            | EmptyString => None
            | String _ rest => matchLatest rest
            end
  end.

End Regex.


(** ** Data model *)

(** Modelled from the spec: the type [NpmConfig] of the parsed
    [package.json], declared outside this file.  "Manifest record: mapping of
    dependency name to version range, mapping of script name to command
    string."  The pass tests both maps against [undefined], so they are
    optional; every other property is carried along untouched in
    [otherFields]. *)
Record NpmConfig : Type := mkNpmConfig {
  devDependencies : option (gmap string string);
  scripts : option (gmap string string);
  otherFields : gmap string string;
}.

(** The parsed [.travis.yml], typed [{before_script?: string[]}] by the pass. *)
Record TravisYaml : Type := mkTravisYaml {
  before_script : option (list string);
  otherKeys : gmap string string;
}.

(** Modelled from the spec: the type [ElementRepo] of [../element-repo], "a
    given repository directory" with the repository name used in log lines.
    The pass reads [element.dir] and [element.ghRepo.name]; [element.repo]
    is reached through [getStatus]. *)
Record ElementRepo : Type := mkElementRepo {
  dir : string;
  ghRepo_name : string;
}.

(** Thrown values. *)
Inductive Exn : Type :=
| Error (message : string)
| TypeError (message : string)
| SystemError (code : string)
| SyntaxError
| YAMLException
| ChildProcessError (message : string)
| GitError (message : string).

(** What [yaml.safeLoad] returns for the text of a file.  [Document]: an
    object of the type the pass declares at lines 104-106, whose
    [before_script] is absent or a list of strings.  [OutsideType]: any other
    value ([undefined] for an empty file, a scalar, an object whose
    [before_script] is a scalar or holds something else than strings).  The
    declared type does not say what lines 107-126 and [safeDump] do with
    such a value, so the value carries it: the exception thrown before
    anything is written (a [TypeError] on [undefined]), or the text that
    reaches [writeFile]. *)
Inductive Loaded : Type :=
| Document (doc : TravisYaml)
| OutsideType (outcome : Exn + string).

(** External calls, in the order the pass makes them. *)
Inductive Event : Type :=
| EvReadJson (file : string)
| EvWriteJson (file : string) (object : NpmConfig)
| EvPathExists (file : string)
| EvReadFile (file : string)
| EvWriteFile (file : string) (data : string)
| EvRemove (file : string)
| EvExecFile (command : string) (args : list string) (cwd : option string)
| EvLog (line : string)
| EvGetStatus
| EvMakeCommit (files : list string) (message : string).

(** The files, the module-level [let latestGeneratorVersion], and the calls
    made so far (oldest first). *)
Record World : Type := mkWorld {
  files : gmap string string;
  latestGeneratorVersion : option string;
  trace : list Event;
}.

(** Libraries and tools the pass consumes as black boxes.  [yaml_safeLoad]
    gives [None] when the text is not YAML.  [execFile] gives, for a command
    run on the current files, the files it leaves behind and either the
    message of the rejection (non-zero exit or spawn failure: [inl]) or its
    standard output ([inr]); a rejected command may have written files too.
    [getStatus] gives the changed paths or the message of the rejection.
    [commitRejection] says whether the commit of [makeCommit] is rejected,
    and with what message. *)
Class Externals : Type := mkExternals {
  semver_satisfies : string → string → bool;
  JSON_parse : string → option NpmConfig;
  JSON_stringify : NpmConfig → string;
  yaml_safeLoad : string → option Loaded;
  yaml_safeDump : TravisYaml → string;
  execFile : string → list string → option string → gmap string string →
             (string + string) * gmap string string;
  getStatus : ElementRepo → gmap string string → string + list string;
  commitRejection : ElementRepo → list string → string → gmap string string →
                    option string;
}.

(** ** The monad of the pass: state, exceptions, trace *)

Inductive Outcome (A : Type) : Type :=
| Returned (a : A)
| Thrown (e : Exn).
Arguments Returned {A} a.
Arguments Thrown {A} e.

Definition M (A : Type) : Type := World → Outcome A * World.

Definition ret {A : Type} (a : A) : M A := fun w => (Returned a, w).

Definition throw {A : Type} (e : Exn) : M A := fun w => (Thrown e, w).

Definition bind {A B : Type} (m : M A) (k : A → M B) : M B :=
  fun w => match m w with
           | (Returned a, w') => k a w'
           | (Thrown e, w') => (Thrown e, w')
           end.

(** [try { m } catch { handler }] *)
Definition tryCatch {A : Type} (m : M A) (handler : Exn → M A) : M A :=
  fun w => match m w with
           | (Returned a, w') => (Returned a, w')
           | (Thrown e, w') => handler e w'
           end.

Notation "'let*' x ':=' m 'in' k" := (bind m (fun x => k))
  (at level 10, x name, m at level 100, k at level 200).
Notation "'let*' ' p ':=' m 'in' k" := (bind m (fun x => match x with p => k end))
  (at level 10, p pattern, m at level 100, k at level 200).
Notation "m ';;' k" := (bind m (fun _ => k))
  (at level 100, k at level 200, right associativity).

(** The world after one more external call. *)
Definition logged (e : Event) (w : World) : World :=
  mkWorld (files w) (latestGeneratorVersion w) (trace w ++ [e]).

(** The world with its files replaced. *)
Definition withFiles (fs : gmap string string) (w : World) : World :=
  mkWorld fs (latestGeneratorVersion w) (trace w).

Definition emit (e : Event) : M unit := fun w => (Returned tt, logged e w).

Definition getFiles : M (gmap string string) := fun w => (Returned (files w), w).

Definition putFiles (fs : gmap string string) : M unit :=
  fun w => (Returned tt, withFiles fs w).

Definition getCache : M (option string) :=
  fun w => (Returned (latestGeneratorVersion w), w).

Definition putCache (v : option string) : M unit :=
  fun w => (Returned tt, mkWorld (files w) v (trace w)).

(** ** Constants of the module *)

Definition generatorPackageName : string := "@polymer/gen-typescript-declarations".
Definition npmScriptName : string := "update-types".
Definition npmScriptCommand : string :=
  "bower install && gen-typescript-declarations --deleteExisting --outDir .".

(** [travisCommand], the line appended to [before_script]. *)
Definition travisCommand : string :=
  "npm run update-types && " +:+
  "git diff --exit-code || " +:+
  "(echo -e '\n\033[31mERROR:\033[0m Typings are stale. " +:+
  "Please run " +:+ JsString.dquote +:+ "npm run update-types" +:+ JsString.dquote +:+ ".' && " +:+
  "false)".

Definition commitMessage : string := "Update and/or configure type declarations.".

(** [path.join(dir, name)] for a one-segment [name]. *)
Definition path_join (d name : string) : string := d +:+ "/" +:+ name.

(** ** Property access on the optional maps of the manifest *)

(** [o[key]]: a [TypeError] when [o] is [undefined]. *)
Definition getProp (o : option (gmap string string)) (key : string) : M (option string) :=
  match o with
  | None => throw (TypeError "Cannot read properties of undefined")
  | Some m => ret (m !! key)
  end.

(** [o[key] = value]: a [TypeError] when [o] is [undefined]. *)
Definition setProp (o : option (gmap string string)) (key value : string)
  : M (option (gmap string string)) :=
  match o with
  | None => throw (TypeError "Cannot set properties of undefined")
  | Some m => ret (Some (<[key := value]> m))
  end.

Definition setDevDependencies (packageJson : NpmConfig) (d : option (gmap string string))
  : NpmConfig :=
  mkNpmConfig d (scripts packageJson) (otherFields packageJson).

Definition setScripts (packageJson : NpmConfig) (s : option (gmap string string))
  : NpmConfig :=
  mkNpmConfig (devDependencies packageJson) s (otherFields packageJson).

(** The local variables of the loop over the changed files. *)
Record Changes : Type := mkChanges {
  updatedTypes : bool;
  updatedTravis : bool;
  commitFiles : list string;
}.

(** The line logged for a changed file the pass does not expect. *)
Definition unexpectedLine (element : ElementRepo) (filepath : string) : Event :=
  EvLog (ghRepo_name element +:+ ": Unexpected changed file: " +:+ filepath).

(** The three accepting branches of the loop body. *)
Definition accepted (filepath : string) : bool :=
  JsString.endsWith filepath ".d.ts"
  || JsString.strictEq filepath ".travis.yml"
  || JsString.strictEq filepath "package.json"
  || JsString.strictEq filepath "package-lock.json".

Section Pass.
Context {ext : Externals}.

(** ** File system, subprocess and version-control calls *)

Definition fse_readJson (file : string) : M NpmConfig :=
  emit (EvReadJson file);;
  let* fs := getFiles in
  match fs !! file with
  | None => throw (SystemError "ENOENT")
  | Some data =>
      match JSON_parse data with
      | None => throw SyntaxError
      | Some object => ret object
      end
  end.

Definition fse_writeJson (file : string) (object : NpmConfig) : M unit :=
  emit (EvWriteJson file object);;
  let* fs := getFiles in
  putFiles (<[file := JSON_stringify object]> fs).

Definition fse_pathExists (file : string) : M bool :=
  emit (EvPathExists file);;
  let* fs := getFiles in
  ret (bool_decide (is_Some (fs !! file))).

Definition fse_readFile (file : string) : M string :=
  emit (EvReadFile file);;
  let* fs := getFiles in
  match fs !! file with
  | None => throw (SystemError "ENOENT")
  | Some data => ret data
  end.

Definition fse_writeFile (file data : string) : M unit :=
  emit (EvWriteFile file data);;
  let* fs := getFiles in
  putFiles (<[file := data]> fs).

Definition fse_remove (file : string) : M unit :=
  emit (EvRemove file);;
  let* fs := getFiles in
  putFiles (delete file fs).

Definition console_log (line : string) : M unit := emit (EvLog line).

(** [execFilePromise(command, args, {cwd})], reduced to its [stdout]. *)
Definition execFilePromise (command : string) (args : list string) (cwd : option string)
  : M string :=
  emit (EvExecFile command args cwd);;
  let* fs := getFiles in
  let '(outcome, fs') := execFile command args cwd fs in
  putFiles fs';;
  match outcome with
  | inl message => throw (ChildProcessError message)
  | inr stdout => ret stdout
  end.

(** [element.repo.getStatus()], reduced to the paths of the status entries. *)
Definition repo_getStatus (element : ElementRepo) : M (list string) :=
  emit EvGetStatus;;
  let* fs := getFiles in
  match getStatus element fs with
  | inl message => throw (GitError message)
  | inr status => ret status
  end.

(** Modelled from the spec: [makeCommit] of [./util], which "creates a commit
    given a file list and message"; the call is recorded with both, and like
    every awaited call it may be rejected. *)
Definition makeCommit (element : ElementRepo) (fileList : list string) (message : string)
  : M unit :=
  emit (EvMakeCommit fileList message);;
  let* fs := getFiles in
  match commitRejection element fileList message fs with
  | Some reason => throw (GitError reason)
  | None => ret tt
  end.

(** ** [getLatestGeneratorVersion] *)

Definition getLatestGeneratorVersion : M string :=
  let* cached := getCache in
  match cached with
  | Some version => ret version
  | None =>
      let* stdout := execFilePromise "npm" ["info"; generatorPackageName] None in
      match Regex.matchLatest stdout with
      | None =>
          throw (Error ("Could not find latest version of " +:+ generatorPackageName))
      | Some group1 =>
          if decide (group1 = "")
          then throw (Error ("Could not find latest version of " +:+ generatorPackageName))
          else putCache (Some group1);; ret group1
      end
  end.

(** ** [typescriptPass], stage by stage *)

(** Lines 59-65: read the manifest, rethrowing any failure. *)
Definition loadManifest (element : ElementRepo) : M NpmConfig :=
  let packageJsonPath := path_join (dir element) "package.json" in
  tryCatch (fse_readJson packageJsonPath)
    (fun _ => throw (Error (ghRepo_name element +:+ ": Missing or invalid package.json."))).

(** Lines 72-98: pin the generator, default bower, set the script, write the
    manifest.  The result is [(majorVersionBump, updatedNpmScript)]. *)
Definition updateManifest (element : ElementRepo) (packageJson : NpmConfig)
  : M (bool * bool) :=
  let packageJsonPath := path_join (dir element) "package.json" in
  let packageJson :=
    match devDependencies packageJson with
    | None => setDevDependencies packageJson (Some ∅)
    | Some _ => packageJson
    end in
  let packageJson :=
    match scripts packageJson with
    | None => setScripts packageJson (Some ∅)
    | Some _ => packageJson
    end in
  let* newGeneratorVersion := getLatestGeneratorVersion in
  let* oldGeneratorRange := getProp (devDependencies packageJson) generatorPackageName in
  let majorVersionBump :=
    match oldGeneratorRange with
    | None => true
    | Some range => negb (semver_satisfies newGeneratorVersion range)
    end in
  let* deps := setProp (devDependencies packageJson) generatorPackageName
                       ("^" +:+ newGeneratorVersion) in
  let packageJson := setDevDependencies packageJson deps in
  let* bower := getProp (devDependencies packageJson) "bower" in
  let* packageJson :=
    match bower with
    | None =>
        let* deps := setProp (devDependencies packageJson) "bower" "^1.8.0" in
        ret (setDevDependencies packageJson deps)
    | Some _ => ret packageJson
    end in
  let* script := getProp (scripts packageJson) npmScriptName in
  let* '(packageJson, updatedNpmScript) :=
    if decide (script = Some npmScriptCommand)
    then ret (packageJson, false)
    else
      let* scr := setProp (scripts packageJson) npmScriptName npmScriptCommand in
      ret (setScripts packageJson scr, true) in
  fse_writeJson packageJsonPath packageJson;;
  ret (majorVersionBump, updatedNpmScript).

(** Lines 107-126 on the parsed document: default the list, drop every line
    that mentions [update-types], push [travisCommand]. *)
Definition refreshBeforeScript (travisYaml : TravisYaml) : TravisYaml :=
  let lines :=
    match before_script travisYaml with
    | None => []
    | Some lines => lines
    end in
  let lines :=
    List.filter (fun line => negb (JsString.includes line "update-types")) lines in
  mkTravisYaml (Some (lines ++ [travisCommand])) (otherKeys travisYaml).

(** Lines 100-130: rewrite [.travis.yml] when it exists, log otherwise. *)
Definition updateTravis (element : ElementRepo) : M unit :=
  let travisYamlPath := path_join (dir element) ".travis.yml" in
  let* present := fse_pathExists travisYamlPath in
  if (present : bool)
  then
    let* data := fse_readFile travisYamlPath in
    match yaml_safeLoad data with
    | None => throw YAMLException
    | Some (Document travisYaml) =>
        fse_writeFile travisYamlPath (yaml_safeDump (refreshBeforeScript travisYaml))
    | Some (OutsideType (inl e)) => throw e
    | Some (OutsideType (inr text)) => fse_writeFile travisYamlPath text
    end
  else console_log (ghRepo_name element +:+ ": Missing .travis.yaml").

(** Lines 132-143: drop the lock file, install, run the generator script. *)
Definition installAndGenerate (element : ElementRepo) : M unit :=
  let execOpts := Some (dir element) in
  let packageLockPath := path_join (dir element) "package-lock.json" in
  let* present := fse_pathExists packageLockPath in
  (if (present : bool) then fse_remove packageLockPath else ret tt);;
  execFilePromise "npm" ["install"] execOpts;;
  execFilePromise "npm" ["run"; npmScriptName] execOpts;;
  ret tt.

(** Lines 146-160: the loop over the changed files. *)
Fixpoint classifyChanges (element : ElementRepo) (status : list string) (c : Changes)
  : M Changes :=
  match status with
  | [] => ret c
  | filepath :: rest =>
      if JsString.endsWith filepath ".d.ts"
      then classifyChanges element rest
             (mkChanges true (updatedTravis c) (commitFiles c ++ [filepath]))
      else if JsString.strictEq filepath ".travis.yml"
      then classifyChanges element rest
             (mkChanges (updatedTypes c) true (commitFiles c ++ [filepath]))
      else if JsString.strictEq filepath "package.json"
              || JsString.strictEq filepath "package-lock.json"
      then classifyChanges element rest
             (mkChanges (updatedTypes c) (updatedTravis c) (commitFiles c ++ [filepath]))
      else
        console_log (ghRepo_name element +:+ ": Unexpected changed file: " +:+ filepath);;
        classifyChanges element rest c
  end.

(** Lines 145-168: classify the status, then commit or log. *)
Definition commitChanges (element : ElementRepo) (majorVersionBump updatedNpmScript : bool)
  : M unit :=
  let* status := repo_getStatus element in
  let* c := classifyChanges element status (mkChanges false false []) in
  if updatedTypes c || majorVersionBump || updatedNpmScript || updatedTravis c
  then makeCommit element (commitFiles c) commitMessage
  else console_log (ghRepo_name element +:+ ": No typings changed.").

Definition typescriptPass (element : ElementRepo) : M unit :=
  let* packageJson := loadManifest element in
  let* '(majorVersionBump, updatedNpmScript) := updateManifest element packageJson in
  updateTravis element;;
  installAndGenerate element;;
  commitChanges element majorVersionBump updatedNpmScript.

End Pass.

(** ** Observing a process run *)

(** The registry query [npm info @polymer/gen-typescript-declarations]. *)
Definition registryQuery : Event :=
  EvExecFile "npm" ["info"; generatorPackageName] None.

Definition isQuery (e : Event) : bool :=
  match e with
  | EvExecFile command args cwd =>
      bool_decide (command = "npm" ∧ args = ["info"; generatorPackageName] ∧ cwd = None)
  | _ => false
  end.

(** How many times the query was executed. *)
Definition queries (t : list Event) : nat := length (List.filter isQuery t).

(** One step of a process run, seen from the resolver: either a call of
    [getLatestGeneratorVersion], whatever its outcome, or any other activity,
    which cannot assign the module-private cache and does not run the query. *)
Inductive step {ext : Externals} : World → World → Prop :=
| step_resolve (w : World) :
    step w (getLatestGeneratorVersion w).2
| step_other (w w' : World) :
    latestGeneratorVersion w' = latestGeneratorVersion w →
    queries (trace w') = queries (trace w) →
    step w w'.

(** A process run: any number of steps. *)
Inductive run {ext : Externals} : World → World → Prop :=
| run_refl (w : World) : run w w
| run_step (w w1 w2 : World) : run w w1 → step w1 w2 → run w w2.

(** A fresh process: no files of interest yet, nothing cached, nothing called. *)
Definition freshWorld (fs : gmap string string) : World := mkWorld fs None [].

(** ** A small concrete environment

    Stand-ins for the external tools, used to run the pass on concrete
    worlds: a range accepts a version when it is [*] or the caret of that
    very version; the JSON documents are the empty object and one manifest
    that the pass has already configured for version 1.2.3; a YAML document
    is its [before_script] lines, one per line of text, the empty text loads
    as [undefined] and the text of a lone opening brace is not YAML; the
    changed files are those listed in the file [STATUS], whose reading is
    rejected when the listing is [fatal]; a commit is rejected when the file
    [LOCKED] exists. *)

Module Demo.

Definition satisfies (version range : string) : bool :=
  bool_decide (range = "*") || bool_decide (range = "^" +:+ version).

Definition parse (data : string) : option NpmConfig :=
  if decide (data = "{}") then Some (mkNpmConfig None None ∅)
  else if decide (data = "{configured}")
  then Some (mkNpmConfig
               (Some {[generatorPackageName := "^1.2.3"; "bower" := "^1.8.0"]})
               (Some {[npmScriptName := npmScriptCommand]}) ∅)
  else None.

Definition stringify (object : NpmConfig) : string := "{...}".

Definition newline : ascii := "010"%char.

Fixpoint splitLines (s : string) : list string :=
  match s with
  | EmptyString => [EmptyString]
  | String c s' =>
      if decide (c = newline) then EmptyString :: splitLines s'
      else match splitLines s' with
           | [] => [String c EmptyString]
           | line :: rest => String c line :: rest
           end
  end.

Fixpoint joinLines (lines : list string) : string :=
  match lines with
  | [] => EmptyString
  | [line] => line
  | line :: rest => line +:+ String newline (joinLines rest)
  end.

Definition safeLoad (data : string) : option Loaded :=
  if decide (data = EmptyString)
  then Some (OutsideType (inl (TypeError "Cannot read properties of undefined")))
  else if decide (data = "{")
  then None
  else Some (Document (mkTravisYaml (Some (splitLines data)) ∅)).

Definition safeDump (doc : TravisYaml) : string :=
  joinLines (default [] (before_script doc)).

Definition status (fs : gmap string string) : string + list string :=
  match fs !! "STATUS" with
  | Some listing =>
      if decide (listing = "fatal")
      then inl "fatal: not a git repository"
      else inr (splitLines listing)
  | None => inr []
  end.

(** [npm info] prints the registry's answer, which names version 1.2.3
    unless the file [REGISTRY] holds another answer, and is rejected when
    the file [UNREACHABLE] exists; [npm install] is rejected when the file
    [OFFLINE] exists; everything else succeeds.  A rejected command leaves
    a log file behind. *)
Definition npm (args : list string) (fs : gmap string string) : string + string :=
  match args with
  | "info" :: _ =>
      if bool_decide (is_Some (fs !! "UNREACHABLE"))
      then inl "npm ERR! registry"
      else inr (default "dist-tags: { latest: '1.2.3' }" (fs !! "REGISTRY"))
  | "install" :: _ =>
      if bool_decide (is_Some (fs !! "OFFLINE"))
      then inl "npm ERR! network"
      else inr ""
  | _ => inr ""
  end.

Definition externals : Externals :=
  mkExternals satisfies parse stringify safeLoad safeDump
    (fun command args cwd fs =>
       match npm args fs with
       | inl message => (inl message, <["npm-debug.log" := message]> fs)
       | inr stdout => (inr stdout, fs)
       end)
    (fun element fs => status fs)
    (fun element fileList message fs =>
       if bool_decide (is_Some (fs !! "LOCKED"))
       then Some "index.lock exists"
       else None).

Definition element : ElementRepo := mkElementRepo "repos/paper-button" "paper-button".

(** A fresh process on a checkout that holds only an empty manifest. *)
Definition freshRepo : World :=
  freshWorld {["repos/paper-button/package.json" := "{}"]}.

(** That checkout once the manifest has been read, updated and written. *)
Definition afterManifest : World :=
  ((let* packageJson := @loadManifest externals element in
    @updateManifest externals element packageJson) freshRepo).2.

(** The world in which the stages before the loop over the changed files
    leave a checkout, and the one in which the stages before the install
    leave it. *)
Definition beforeLoop (w : World) : World :=
  ((let* packageJson := @loadManifest externals element in
    let* flags := @updateManifest externals element packageJson in
    @updateTravis externals element;; @installAndGenerate externals element;;
    ret flags) w).2.

Definition beforeInstall (w : World) : World :=
  ((let* packageJson := @loadManifest externals element in
    let* flags := @updateManifest externals element packageJson in
    @updateTravis externals element;; ret flags) w).2.

(** A checkout with a CI configuration, in which the generator changes a
    declaration file. *)
Definition changedCheckout : World :=
  freshWorld {["repos/paper-button/package.json" := "{}";
               "repos/paper-button/.travis.yml" := "npm run lint";
               "STATUS" := "a.d.ts" +:+ String newline
                           (".travis.yml" +:+ String newline "package.json")]}.

(** A checkout already configured, in which only the manifest is rewritten. *)
Definition quietCheckout : World :=
  freshWorld {["repos/paper-button/package.json" := "{configured}";
               "STATUS" := "package.json"]}.

(** A checkout in which a file the pass does not expect has changed. *)
Definition strayCheckout : World :=
  freshWorld {["repos/paper-button/package.json" := "{}";
               "STATUS" := "a.d.ts" +:+ String newline "README.md"]}.

(** A checkout with a CI configuration and a lock file. *)
Definition lockedCheckout : World :=
  freshWorld {["repos/paper-button/package.json" := "{}";
               "repos/paper-button/.travis.yml" := "npm run lint";
               "repos/paper-button/package-lock.json" := "{}"]}.


(** The checkout with a lock file, without network. *)
Definition offlineCheckout : World :=
  freshWorld {["repos/paper-button/package.json" := "{}";
               "repos/paper-button/.travis.yml" := "npm run lint";
               "repos/paper-button/package-lock.json" := "{}";
               "OFFLINE" := ""]}.

End Demo.

(** ** Vocabulary of the further properties *)

(** A string made of the characters [0] to [9] only. *)
Fixpoint digitString (s : string) : bool :=
  match s with
  | EmptyString => true
  | String c s' => Regex.isDigit c && digitString s'
  end.

(** A computation every execution of which is a stretch of a process run:
    whatever it does to the cache and the query count, it does through
    [getLatestGeneratorVersion]. *)
Definition runs {ext : Externals} {A : Type} (m : M A) : Prop :=
  ∀ w, run w (m w).2.

(** Evaluate the monad's plumbing, leaving external calls in place. *)
Ltac run_pure :=
  cbn [bind ret throw getProp setProp devDependencies scripts otherFields
       setDevDependencies setScripts].

(** * Running the monad *)

Section Run.
Context {ext : Externals}.

Lemma bind_returned {A B : Type} (m : M A) (k : A → M B) (w w' : World) (a : A) :
  m w = (Returned a, w') → bind m k w = k a w'.
Proof. intros Hm. unfold bind. rewrite Hm. reflexivity. Qed.

Lemma bind_thrown {A B : Type} (m : M A) (k : A → M B) (w w' : World) (e : Exn) :
  m w = (Thrown e, w') → bind m k w = (Thrown e, w').
Proof. intros Hm. unfold bind. rewrite Hm. reflexivity. Qed.

Lemma fse_writeJson_run (file : string) (object : NpmConfig) (w : World) :
  fse_writeJson file object w
  = (Returned tt,
     withFiles (<[file := JSON_stringify object]> (files w)) (logged (EvWriteJson file object) w)).
Proof. reflexivity. Qed.

Lemma updateManifest_defaults (element : ElementRepo) (packageJson : NpmConfig) :
  updateManifest element packageJson
  = updateManifest element
      (mkNpmConfig (Some (default ∅ (devDependencies packageJson)))
                   (Some (default ∅ (scripts packageJson)))
                   (otherFields packageJson)).
Proof. destruct packageJson as [[d|] [s|] o]; reflexivity. Qed.

Lemma updateManifest_core (element : ElementRepo) (d s o : gmap string string)
    (w w1 : World) (v : string) :
  getLatestGeneratorVersion w = (Returned v, w1) →
  ∃ (written : NpmConfig) (deps scr : gmap string string) (bump changed : bool),
    updateManifest element (mkNpmConfig (Some d) (Some s) o) w
    = (Returned (bump, changed),
       withFiles (<[path_join (dir element) "package.json" := JSON_stringify written]> (files w1))
                 (logged (EvWriteJson (path_join (dir element) "package.json") written) w1))
    ∧ written = mkNpmConfig (Some deps) (Some scr) o
    ∧ deps = (if d !! "bower" is Some _
              then <[generatorPackageName := "^" +:+ v]> d
              else <["bower" := "^1.8.0"]> (<[generatorPackageName := "^" +:+ v]> d))
    ∧ scr = (if decide (s !! npmScriptName = Some npmScriptCommand)
             then s else <[npmScriptName := npmScriptCommand]> s)
    ∧ bump = match d !! generatorPackageName with
             | None => true
             | Some range => negb (semver_satisfies v range)
             end
    ∧ changed = negb (bool_decide (s !! npmScriptName = Some npmScriptCommand)).
Proof.
  intros Hv. unfold updateManifest. run_pure.
  rewrite (bind_returned _ _ _ _ _ Hv). run_pure.
  rewrite lookup_insert_ne by done.
  destruct (d !! "bower") as [b|] eqn:Hb; run_pure;
    destruct (decide (s !! npmScriptName = Some npmScriptCommand)) as [Hs|Hs];
    run_pure; (erewrite bind_returned by apply fse_writeJson_run);
    do 5 eexists; (split; [reflexivity|]); cbn [setDevDependencies setScripts devDependencies scripts otherFields];
    rewrite ?bool_decide_eq_true_2, ?bool_decide_eq_false_2 by done; repeat split; rewrite ?bool_decide_eq_true_2, ?bool_decide_eq_false_2 by done;
    reflexivity.
Qed.

Lemma fse_readJson_run (file data : string) (object : NpmConfig) (w : World) :
  files w !! file = Some data →
  JSON_parse data = Some object →
  fse_readJson file w = (Returned object, logged (EvReadJson file) w).
Proof.
  intros Hf Hp. unfold fse_readJson, bind, emit, getFiles.
  cbn [files logged]. rewrite Hf, Hp. reflexivity.
Qed.

Lemma fse_readJson_fails (file : string) (w : World) :
  files w !! file = None
  ∨ (∃ data, files w !! file = Some data ∧ JSON_parse data = None) →
  ∃ e, fse_readJson file w = (Thrown e, logged (EvReadJson file) w).
Proof.
  intros [Hf | (data & Hf & Hp)]; unfold fse_readJson, bind, emit, getFiles;
    cbn [files logged]; rewrite Hf; [|rewrite Hp]; eexists; reflexivity.
Qed.

Lemma fse_pathExists_run (file : string) (w : World) :
  fse_pathExists file w
  = (Returned (bool_decide (is_Some (files w !! file))), logged (EvPathExists file) w).
Proof. reflexivity. Qed.

Lemma fse_readFile_run (file data : string) (w : World) :
  files w !! file = Some data →
  fse_readFile file w = (Returned data, logged (EvReadFile file) w).
Proof.
  intros Hf. unfold fse_readFile, bind, emit, getFiles.
  cbn [files logged]. rewrite Hf. reflexivity.
Qed.

Lemma fse_writeFile_run (file data : string) (w : World) :
  fse_writeFile file data w
  = (Returned tt, withFiles (<[file := data]> (files w)) (logged (EvWriteFile file data) w)).
Proof. reflexivity. Qed.

Lemma fse_remove_run (file : string) (w : World) :
  fse_remove file w
  = (Returned tt, withFiles (delete file (files w)) (logged (EvRemove file) w)).
Proof. reflexivity. Qed.

Lemma console_log_run (line : string) (w : World) :
  console_log line w = (Returned tt, logged (EvLog line) w).
Proof. reflexivity. Qed.

Lemma execFilePromise_resolves (command : string) (args : list string)
    (cwd : option string) (w : World) (stdout : string) (fs' : gmap string string) :
  execFile command args cwd (files w) = (inr stdout, fs') →
  execFilePromise command args cwd w
  = (Returned stdout, withFiles fs' (logged (EvExecFile command args cwd) w)).
Proof.
  intros Hx. unfold execFilePromise, bind, emit, getFiles.
  cbn [files logged]. rewrite Hx. reflexivity.
Qed.

Lemma execFilePromise_rejects (command : string) (args : list string)
    (cwd : option string) (w : World) (message : string) (fs' : gmap string string) :
  execFile command args cwd (files w) = (inl message, fs') →
  execFilePromise command args cwd w
  = (Thrown (ChildProcessError message),
     withFiles fs' (logged (EvExecFile command args cwd) w)).
Proof.
  intros Hx. unfold execFilePromise, bind, emit, getFiles.
  cbn [files logged]. rewrite Hx. reflexivity.
Qed.

Lemma repo_getStatus_resolves (element : ElementRepo) (w : World) (status : list string) :
  getStatus element (files w) = inr status →
  repo_getStatus element w = (Returned status, logged EvGetStatus w).
Proof.
  intros Hs. unfold repo_getStatus, bind, emit, getFiles.
  cbn [files logged]. rewrite Hs. reflexivity.
Qed.

Lemma repo_getStatus_rejects (element : ElementRepo) (w : World) (message : string) :
  getStatus element (files w) = inl message →
  repo_getStatus element w = (Thrown (GitError message), logged EvGetStatus w).
Proof.
  intros Hs. unfold repo_getStatus, bind, emit, getFiles.
  cbn [files logged]. rewrite Hs. reflexivity.
Qed.

Lemma makeCommit_run (element : ElementRepo) (fileList : list string) (message : string)
    (w : World) :
  makeCommit element fileList message w
  = (match commitRejection element fileList message (files w) with
     | Some reason => Thrown (GitError reason)
     | None => Returned tt
     end,
     logged (EvMakeCommit fileList message) w).
Proof.
  unfold makeCommit, bind, emit, getFiles. cbn [files logged].
  destruct (commitRejection element fileList message (files w)); reflexivity.
Qed.

Lemma default_lookup (o : option (gmap string string)) (key : string) :
  default ∅ o !! key = o ≫= (.!! key).
Proof. destruct o; [reflexivity | apply lookup_empty]. Qed.

(** What [updateManifest] returns and writes, once the version is resolved. *)
Lemma updateManifest_written (element : ElementRepo) (packageJson : NpmConfig)
    (w w1 : World) (v : string) :
  getLatestGeneratorVersion w = (Returned v, w1) →
  ∃ (written : NpmConfig) (deps scr : gmap string string) (bump changed : bool),
    updateManifest element packageJson w
    = (Returned (bump, changed),
       withFiles (<[path_join (dir element) "package.json" := JSON_stringify written]> (files w1))
                 (logged (EvWriteJson (path_join (dir element) "package.json") written) w1))
    ∧ written = mkNpmConfig (Some deps) (Some scr) (otherFields packageJson)
    ∧ deps !! generatorPackageName = Some ("^" +:+ v)
    ∧ deps !! "bower"
      = Some (default "^1.8.0" (devDependencies packageJson ≫= (.!! "bower")))
    ∧ scr !! npmScriptName = Some npmScriptCommand
    ∧ bump = match devDependencies packageJson ≫= (.!! generatorPackageName) with
             | None => true
             | Some range => negb (semver_satisfies v range)
             end
    ∧ changed = negb (bool_decide (scripts packageJson ≫= (.!! npmScriptName)
                                   = Some npmScriptCommand)).
Proof.
  intros Hv. rewrite updateManifest_defaults.
  destruct (updateManifest_core element (default ∅ (devDependencies packageJson))
              (default ∅ (scripts packageJson)) (otherFields packageJson) w w1 v Hv)
    as (written & deps & scr & bump & changed & Hrun & -> & Hdeps & Hscr & -> & ->).
  exists (mkNpmConfig (Some deps) (Some scr) (otherFields packageJson)), deps, scr.
  do 2 eexists. split; [exact Hrun|]. split; [reflexivity|].
  rewrite !default_lookup in *.
  repeat split.
  - subst deps. destruct (devDependencies packageJson ≫= (.!! "bower"));
      [|rewrite lookup_insert_ne by done]; apply lookup_insert_eq.
  - subst deps.
    destruct (devDependencies packageJson ≫= (.!! "bower")) as [b|] eqn:Hb; cbn [default].
    + rewrite lookup_insert_ne by done. rewrite default_lookup. exact Hb.
    + apply lookup_insert_eq.
  - subst scr. destruct (decide _) as [Hs|Hs]; [|apply lookup_insert_eq].
    rewrite default_lookup. exact Hs.
Qed.

(** *** The pattern never captures an empty group *)

Lemma digitsThen_nonempty (stop s d r : string) :
  Regex.digitsThen stop s = Some (d, r) → d ≠ "".
Proof.
  unfold Regex.digitsThen. destruct (Regex.digits s) as [d0 r0].
  destruct d0 as [|c d0]; [discriminate|].
  destruct (JsString.stripPrefix stop r0); [|discriminate].
  intros [= <- _]. discriminate.
Qed.

Lemma matchHere_nonempty (s g : string) : Regex.matchHere s = Some g → g ≠ "".
Proof.
  unfold Regex.matchHere.
  destruct (JsString.stripPrefix _ s) as [r0|]; [|discriminate].
  destruct (Regex.digitsThen "." r0) as [[a r1]|] eqn:Ha; [|discriminate].
  destruct (Regex.digitsThen "." r1) as [[b r2]|]; [|discriminate].
  destruct (Regex.digitsThen "'" r2) as [[c r3]|]; [|discriminate].
  intros [= <-]. apply digitsThen_nonempty in Ha.
  destruct a as [|x a]; [congruence|]. discriminate.
Qed.

Lemma matchLatest_nonempty (stdout g : string) :
  Regex.matchLatest stdout = Some g → g ≠ "".
Proof.
  induction stdout as [|c rest IH]; cbn [Regex.matchLatest].
  - destruct (Regex.matchHere "") as [g'|] eqn:Hm; [|discriminate].
    intros [= <-]. eapply matchHere_nonempty, Hm.
  - destruct (Regex.matchHere (String c rest)) as [g'|] eqn:Hm; [|exact IH].
    intros [= <-]. eapply matchHere_nonempty, Hm.
Qed.

(** *** The four ways a call of the resolver can go *)

Lemma getLatestGeneratorVersion_cached (w : World) (v : string) :
  latestGeneratorVersion w = Some v →
  getLatestGeneratorVersion w = (Returned v, w).
Proof.
  intros Hc. unfold getLatestGeneratorVersion, bind, getCache. rewrite Hc. reflexivity.
Qed.

Lemma getLatestGeneratorVersion_fetched (w : World) (stdout v : string)
    (fs' : gmap string string) :
  latestGeneratorVersion w = None →
  execFile "npm" ["info"; generatorPackageName] None (files w) = (inr stdout, fs') →
  Regex.matchLatest stdout = Some v →
  getLatestGeneratorVersion w
  = (Returned v, mkWorld fs' (Some v) (trace w ++ [registryQuery])).
Proof.
  intros Hc Hx Hm. unfold getLatestGeneratorVersion, getCache.
  unfold bind at 1. rewrite Hc.
  rewrite (bind_returned _ _ _ _ _ (execFilePromise_resolves _ _ _ _ _ _ Hx)).
  rewrite Hm. destruct (decide (v = "")) as [He|_].
  - exfalso. eapply matchLatest_nonempty; eassumption.
  - reflexivity.
Qed.

Lemma getLatestGeneratorVersion_unmatched (w : World) (stdout : string)
    (fs' : gmap string string) :
  latestGeneratorVersion w = None →
  execFile "npm" ["info"; generatorPackageName] None (files w) = (inr stdout, fs') →
  Regex.matchLatest stdout = None →
  getLatestGeneratorVersion w
  = (Thrown (Error ("Could not find latest version of " +:+ generatorPackageName)),
     mkWorld fs' None (trace w ++ [registryQuery])).
Proof.
  intros Hc Hx Hm. unfold getLatestGeneratorVersion, getCache.
  unfold bind at 1. rewrite Hc.
  rewrite (bind_returned _ _ _ _ _ (execFilePromise_resolves _ _ _ _ _ _ Hx)).
  rewrite Hm. unfold throw, withFiles, logged. cbn. rewrite Hc. reflexivity.
Qed.

Lemma getLatestGeneratorVersion_rejected (w : World) (message : string)
    (fs' : gmap string string) :
  latestGeneratorVersion w = None →
  execFile "npm" ["info"; generatorPackageName] None (files w) = (inl message, fs') →
  getLatestGeneratorVersion w
  = (Thrown (ChildProcessError message),
     mkWorld fs' None (trace w ++ [registryQuery])).
Proof.
  intros Hc Hx. unfold getLatestGeneratorVersion, getCache.
  unfold bind at 1. rewrite Hc.
  rewrite (bind_thrown _ _ _ _ _ (execFilePromise_rejects _ _ _ _ _ _ Hx)).
  unfold withFiles, logged. cbn [files latestGeneratorVersion trace].
  rewrite Hc. reflexivity.
Qed.

(** *** The loop over the changed files *)

Lemma strictEq_true (s t : string) : JsString.strictEq s t = true ↔ s = t.
Proof. unfold JsString.strictEq. apply bool_decide_eq_true. Qed.

Lemma strictEq_false (s t : string) : JsString.strictEq s t = false ↔ s ≠ t.
Proof. unfold JsString.strictEq. apply bool_decide_eq_false. Qed.

Lemma accepted_false (filepath : string) :
  accepted filepath = false ↔
  JsString.endsWith filepath ".d.ts" = false ∧ filepath ≠ ".travis.yml"
  ∧ filepath ≠ "package.json" ∧ filepath ≠ "package-lock.json".
Proof.
  unfold accepted. rewrite !orb_false_iff, !strictEq_false. tauto.
Qed.

(** The loop never throws; it keeps the accepted paths in order, raises a
    flag when a branch is taken, and logs every other path. *)
Lemma classifyChanges_run (element : ElementRepo) (status : list string)
    (c : Changes) (w : World) :
  classifyChanges element status c w
  = (Returned
       (mkChanges
          (updatedTypes c || existsb (fun f => JsString.endsWith f ".d.ts") status)
          (updatedTravis c || existsb (fun f => JsString.strictEq f ".travis.yml") status)
          (commitFiles c ++ List.filter accepted status)),
     mkWorld (files w) (latestGeneratorVersion w)
       (trace w ++ map (unexpectedLine element)
                       (List.filter (fun f => negb (accepted f)) status))).
Proof.
  revert c w. induction status as [|filepath rest IH]; intros c w.
  - cbn. rewrite !orb_false_r, !app_nil_r. destruct c, w. reflexivity.
  - cbn [classifyChanges existsb List.filter].
    destruct (JsString.endsWith filepath ".d.ts") eqn:Hd.
    { assert (accepted filepath = true) as -> by (unfold accepted; rewrite Hd; reflexivity).
      assert (JsString.strictEq filepath ".travis.yml" = false) as ->.
      { apply strictEq_false. intros ->. vm_compute in Hd. discriminate. }
      rewrite IH. cbn [updatedTypes updatedTravis commitFiles negb orb].
      rewrite <- app_assoc, orb_true_r. reflexivity. }
    destruct (JsString.strictEq filepath ".travis.yml") eqn:Ht.
    { assert (accepted filepath = true) as ->
        by (unfold accepted; rewrite Hd, Ht; reflexivity).
      rewrite IH. cbn [updatedTypes updatedTravis commitFiles negb orb].
      rewrite <- app_assoc, orb_true_r. reflexivity. }
    destruct (JsString.strictEq filepath "package.json"
              || JsString.strictEq filepath "package-lock.json") eqn:Hp.
    { assert (accepted filepath = true) as ->
        by (unfold accepted; rewrite Hd, Ht, <- orb_assoc, Hp; reflexivity).
      rewrite IH. cbn [updatedTypes updatedTravis commitFiles negb orb].
      rewrite <- app_assoc. reflexivity. }
    assert (accepted filepath = false) as ->
      by (unfold accepted; rewrite Hd, Ht, <- orb_assoc, Hp; reflexivity).
    rewrite (bind_returned _ _ _ _ _ (console_log_run _ _)). rewrite IH.
    cbn [negb orb map logged files latestGeneratorVersion trace].
    rewrite <- app_assoc. reflexivity.
Qed.

End Run.

(** * The manifest *)

(** C1: for a manifest whose devDependencies has no entry for the generator
    package (the map itself may be missing), the manifest-update step
    succeeds once the version is resolved, the written manifest maps the
    generator to [^] followed by the resolved version, and the
    major-version-bump flag is true. *)
Theorem missing_generator_entry_is_pinned_and_bumps {ext : Externals}
    (element : ElementRepo) (packageJson : NpmConfig) (w w1 : World) (v : string) :
  devDependencies packageJson ≫= (.!! generatorPackageName) = None →
  getLatestGeneratorVersion w = (Returned v, w1) →
  ∃ (written : NpmConfig) (deps : gmap string string) (updatedNpmScript : bool),
    updateManifest element packageJson w
    = (Returned (true, updatedNpmScript),
       withFiles (<[path_join (dir element) "package.json" := JSON_stringify written]>
                    (files w1))
                 (logged (EvWriteJson (path_join (dir element) "package.json") written) w1))
    ∧ devDependencies written = Some deps
    ∧ deps !! generatorPackageName = Some ("^" +:+ v).
Proof.
  intros Hold Hv.
  destruct (updateManifest_written element packageJson w w1 v Hv)
    as (written & deps & scr & bump & changed & Hrun & -> & Hgen & _ & _ & -> & _).
  rewrite Hold in Hrun. eauto 10.
Qed.

Lemma missing_generator_entry_witness :
  ∃ (written : NpmConfig) (deps : gmap string string) (updatedNpmScript : bool),
    @updateManifest Demo.externals Demo.element
      (mkNpmConfig (Some {["bower" := "^1.7.0"]}) None ∅) (freshWorld ∅)
    = (Returned (true, updatedNpmScript),
       withFiles (<["repos/paper-button/package.json" := Demo.stringify written]> ∅)
                 (logged (EvWriteJson "repos/paper-button/package.json" written)
                         (mkWorld ∅ (Some "1.2.3") [registryQuery])))
    ∧ devDependencies written = Some deps
    ∧ deps !! generatorPackageName = Some "^1.2.3".
Proof.
  apply (missing_generator_entry_is_pinned_and_bumps (ext := Demo.externals)
           Demo.element (mkNpmConfig (Some {["bower" := "^1.7.0"]}) None ∅)
           (freshWorld ∅) (mkWorld ∅ (Some "1.2.3") [registryQuery]) "1.2.3").
  - vm_compute. reflexivity.
  - vm_compute. reflexivity.
Defined.

(** C2: for a manifest whose generator range is satisfied by the resolved
    version, the major-version-bump flag is false and the written range is
    [^] followed by the resolved version; running the step again on the written manifest with
    the same resolved version writes that same manifest, so the entry is
    unchanged. *)
Theorem satisfied_range_is_rewritten_without_bump {ext : Externals}
    (element : ElementRepo) (packageJson : NpmConfig) (w w1 : World)
    (v range : string) :
  devDependencies packageJson ≫= (.!! generatorPackageName) = Some range →
  semver_satisfies v range = true →
  getLatestGeneratorVersion w = (Returned v, w1) →
  ∃ (written : NpmConfig) (deps : gmap string string) (updatedNpmScript : bool),
    updateManifest element packageJson w
    = (Returned (false, updatedNpmScript),
       withFiles (<[path_join (dir element) "package.json" := JSON_stringify written]>
                    (files w1))
                 (logged (EvWriteJson (path_join (dir element) "package.json") written) w1))
    ∧ devDependencies written = Some deps
    ∧ deps !! generatorPackageName = Some ("^" +:+ v)
    ∧ ∀ (w' w1' : World),
        getLatestGeneratorVersion w' = (Returned v, w1') →
        ∃ (majorVersionBump : bool),
          updateManifest element written w'
          = (Returned (majorVersionBump, false),
             withFiles (<[path_join (dir element) "package.json" := JSON_stringify written]>
                          (files w1'))
                       (logged (EvWriteJson (path_join (dir element) "package.json") written)
                               w1')).
Proof.
  intros Hold Hsat Hv.
  destruct (updateManifest_written element packageJson w w1 v Hv)
    as (written & deps & scr & bump & changed & Hrun & -> & Hgen & Hbow & Hscr & -> & _).
  rewrite Hold, Hsat in Hrun. cbn [negb] in Hrun.
  exists (mkNpmConfig (Some deps) (Some scr) (otherFields packageJson)), deps, changed.
  repeat split; [exact Hrun | exact Hgen |].
  intros w' w1' Hv'.
  destruct (updateManifest_core element deps scr (otherFields packageJson) w' w1' v Hv')
    as (written' & deps' & scr' & bump' & changed' & Hrun' & -> & -> & -> & _ & ->).
  rewrite Hbow in Hrun'. rewrite decide_True in Hrun' by exact Hscr.
  rewrite (insert_id deps _ _ Hgen) in Hrun'.
  rewrite bool_decide_eq_true_2 in Hrun' by exact Hscr.
  exists bump'. exact Hrun'.
Qed.

Lemma satisfied_range_witness :
  ∃ (written : NpmConfig) (deps : gmap string string) (updatedNpmScript : bool),
    @updateManifest Demo.externals Demo.element
      (mkNpmConfig (Some {[generatorPackageName := "*"]}) (Some ∅) ∅) (freshWorld ∅)
    = (Returned (false, updatedNpmScript),
       withFiles (<["repos/paper-button/package.json" := Demo.stringify written]> ∅)
                 (logged (EvWriteJson "repos/paper-button/package.json" written)
                         (mkWorld ∅ (Some "1.2.3") [registryQuery])))
    ∧ devDependencies written = Some deps
    ∧ deps !! generatorPackageName = Some "^1.2.3"
    ∧ ∀ (w' w1' : World),
        @getLatestGeneratorVersion Demo.externals w' = (Returned "1.2.3", w1') →
        ∃ (majorVersionBump : bool),
          @updateManifest Demo.externals Demo.element written w'
          = (Returned (majorVersionBump, false),
             withFiles (<["repos/paper-button/package.json" := Demo.stringify written]>
                          (files w1'))
                       (logged (EvWriteJson "repos/paper-button/package.json" written) w1')).
Proof.
  apply (satisfied_range_is_rewritten_without_bump (ext := Demo.externals)
           Demo.element (mkNpmConfig (Some {[generatorPackageName := "*"]}) (Some ∅) ∅)
           (freshWorld ∅) (mkWorld ∅ (Some "1.2.3") [registryQuery]) "1.2.3" "*").
  - vm_compute. reflexivity.
  - vm_compute. reflexivity.
  - vm_compute. reflexivity.
Defined.

(** C10: for a manifest in which the devDependencies map or the scripts map
    is absent, the manifest-update step does not throw once the version is
    resolved: the written manifest has both maps, the generator pinned to
    [^] followed by the resolved version, bower at [^1.8.0] when it had no
    entry and at its previous range otherwise, and the update-types script
    equal to the fixed command; an absent generator entry raises the
    major-version-bump flag. *)
Theorem absent_maps_are_created {ext : Externals}
    (element : ElementRepo) (packageJson : NpmConfig) (w w1 : World) (v : string) :
  devDependencies packageJson = None ∨ scripts packageJson = None →
  getLatestGeneratorVersion w = (Returned v, w1) →
  ∃ (written : NpmConfig) (deps scr : gmap string string)
    (majorVersionBump updatedNpmScript : bool),
    updateManifest element packageJson w
    = (Returned (majorVersionBump, updatedNpmScript),
       withFiles (<[path_join (dir element) "package.json" := JSON_stringify written]>
                    (files w1))
                 (logged (EvWriteJson (path_join (dir element) "package.json") written) w1))
    ∧ devDependencies written = Some deps
    ∧ scripts written = Some scr
    ∧ deps !! generatorPackageName = Some ("^" +:+ v)
    ∧ deps !! "bower"
      = match devDependencies packageJson ≫= (.!! "bower") with
        | None => Some "^1.8.0"
        | Some previous => Some previous
        end
    ∧ scr !! npmScriptName = Some npmScriptCommand
    ∧ (devDependencies packageJson ≫= (.!! generatorPackageName) = None →
       majorVersionBump = true)
    ∧ (devDependencies packageJson = None → majorVersionBump = true)
    ∧ (scripts packageJson = None → updatedNpmScript = true).
Proof.
  intros _ Hv.
  destruct (updateManifest_written element packageJson w w1 v Hv)
    as (written & deps & scr & bump & changed & Hrun & -> & Hgen & Hbow & Hscr & -> & ->).
  do 5 eexists. split; [exact Hrun|].
  repeat split; try assumption.
  - rewrite Hbow. destruct (devDependencies packageJson ≫= (.!! "bower")); reflexivity.
  - intros ->. reflexivity.
  - intros ->. reflexivity.
  - intros ->. reflexivity.
Qed.

Lemma absent_maps_witness :
  ∃ (written : NpmConfig) (deps scr : gmap string string)
    (majorVersionBump updatedNpmScript : bool),
    @updateManifest Demo.externals Demo.element
      (mkNpmConfig None None ∅) (freshWorld ∅)
    = (Returned (majorVersionBump, updatedNpmScript),
       withFiles (<["repos/paper-button/package.json" := Demo.stringify written]> ∅)
                 (logged (EvWriteJson "repos/paper-button/package.json" written)
                         (mkWorld ∅ (Some "1.2.3") [registryQuery])))
    ∧ devDependencies written = Some deps
    ∧ scripts written = Some scr
    ∧ deps !! generatorPackageName = Some "^1.2.3"
    ∧ deps !! "bower" = Some "^1.8.0"
    ∧ scr !! npmScriptName = Some npmScriptCommand
    ∧ ((None : option string) = None → majorVersionBump = true)
    ∧ ((None : option (gmap string string)) = None → majorVersionBump = true)
    ∧ ((None : option (gmap string string)) = None → updatedNpmScript = true).
Proof.
  apply (absent_maps_are_created (ext := Demo.externals)
           Demo.element (mkNpmConfig None None ∅)
           (freshWorld ∅) (mkWorld ∅ (Some "1.2.3") [registryQuery]) "1.2.3").
  - left. reflexivity.
  - vm_compute. reflexivity.
Defined.

(** * The Travis configuration *)

Section Travis.
Context {ext : Externals}.

Lemma travisCommand_is_marked : JsString.includes travisCommand "update-types" = true.
Proof. vm_compute. reflexivity. Qed.

Lemma filter_twice {A : Type} (f : A → bool) (l : list A) :
  List.filter f (List.filter f l) = List.filter f l.
Proof.
  induction l as [|x l IH]; [reflexivity|]. cbn [List.filter].
  destruct (f x) eqn:Hx; [|exact IH]. cbn [List.filter]. rewrite Hx, IH. reflexivity.
Qed.

Lemma filter_none {A : Type} (f g : A → bool) (l : list A) :
  (∀ x, f x = true → g x = false) →
  List.filter g (List.filter f l) = [].
Proof.
  intros Hfg. induction l as [|x l IH]; [reflexivity|]. cbn [List.filter].
  destruct (f x) eqn:Hx; [|exact IH]. cbn [List.filter]. rewrite (Hfg x Hx). exact IH.
Qed.

Lemma refreshBeforeScript_lines (doc : TravisYaml) :
  refreshBeforeScript doc
  = mkTravisYaml
      (Some (List.filter (fun line => negb (JsString.includes line "update-types")) (default [] (before_script doc))
             ++ [travisCommand]))
      (otherKeys doc).
Proof. unfold refreshBeforeScript. destruct (before_script doc); reflexivity. Qed.

(** On the parsed document the update is idempotent. *)
Lemma refreshBeforeScript_idempotent (doc : TravisYaml) :
  refreshBeforeScript (refreshBeforeScript doc) = refreshBeforeScript doc.
Proof.
  rewrite (refreshBeforeScript_lines (refreshBeforeScript doc)).
  rewrite (refreshBeforeScript_lines doc). cbn [before_script otherKeys default from_option id].
  rewrite List.filter_app, filter_twice. cbn [List.filter].
  rewrite travisCommand_is_marked. cbn [negb].
  rewrite app_nil_r. reflexivity.
Qed.

Lemma one_marked_line (lines : list string) :
  length (List.filter (fun line => JsString.includes line "update-types")
            (List.filter (fun line => negb (JsString.includes line "update-types")) lines ++ [travisCommand])) = 1.
Proof.
  rewrite List.filter_app, filter_none.
  - cbn [List.filter]. rewrite travisCommand_is_marked. reflexivity.
  - intros x Hx. apply negb_true_iff in Hx. exact Hx.
Qed.

Lemma one_copy_of_travisCommand (lines : list string) :
  length (List.filter (fun line => JsString.strictEq line travisCommand)
            (List.filter (fun line => negb (JsString.includes line "update-types")) lines ++ [travisCommand])) = 1.
Proof.
  rewrite List.filter_app, filter_none.
  - cbn [List.filter]. unfold JsString.strictEq. rewrite bool_decide_eq_true_2 by done.
    reflexivity.
  - intros x Hx. apply negb_true_iff in Hx. apply strictEq_false. intros ->.
    rewrite travisCommand_is_marked in Hx. discriminate.
Qed.

Lemma updateTravis_rewrites (element : ElementRepo) (w : World) (data : string)
    (doc : TravisYaml) :
  files w !! path_join (dir element) ".travis.yml" = Some data →
  yaml_safeLoad data = Some (Document doc) →
  updateTravis element w
  = (Returned tt,
     withFiles (<[path_join (dir element) ".travis.yml"
                  := yaml_safeDump (refreshBeforeScript doc)]> (files w))
       (logged (EvWriteFile (path_join (dir element) ".travis.yml")
                            (yaml_safeDump (refreshBeforeScript doc)))
          (logged (EvReadFile (path_join (dir element) ".travis.yml"))
             (logged (EvPathExists (path_join (dir element) ".travis.yml")) w)))).
Proof.
  intros Hf Hy. unfold updateTravis.
  rewrite (bind_returned _ _ _ _ _ (fse_pathExists_run _ _)).
  rewrite bool_decide_eq_true_2 by (rewrite Hf; eauto).
  erewrite bind_returned by (apply fse_readFile_run; exact Hf).
  rewrite Hy, fse_writeFile_run. reflexivity.
Qed.

Lemma updateTravis_missing (element : ElementRepo) (w : World) :
  files w !! path_join (dir element) ".travis.yml" = None →
  updateTravis element w
  = (Returned tt,
     logged (EvLog (ghRepo_name element +:+ ": Missing .travis.yaml"))
       (logged (EvPathExists (path_join (dir element) ".travis.yml")) w)).
Proof.
  intros Hf. unfold updateTravis.
  rewrite (bind_returned _ _ _ _ _ (fse_pathExists_run _ _)).
  rewrite bool_decide_eq_false_2 by (rewrite Hf; intros [? [=]]).
  apply console_log_run.
Qed.

End Travis.

(** C3: two CI-config updates in a row, the second reading what the first
    wrote, leave a [before_script] with exactly one copy of the injected
    command and exactly one line mentioning [update-types]: the lines of the
    original document that do not mention the marker, followed by the
    command.  The file loads to a document of the declared type, and the YAML
    codec is assumed to read back the document the first update dumped. *)
Theorem two_travis_updates_inject_one_command {ext : Externals}
    (element : ElementRepo) (w : World) (data : string) (doc : TravisYaml) :
  files w !! path_join (dir element) ".travis.yml" = Some data →
  yaml_safeLoad data = Some (Document doc) →
  yaml_safeLoad (yaml_safeDump (refreshBeforeScript doc))
  = Some (Document (refreshBeforeScript doc)) →
  ∃ (lines : list string) (w2 : World),
    (updateTravis element;; updateTravis element) w = (Returned tt, w2)
    ∧ files w2 !! path_join (dir element) ".travis.yml"
      = Some (yaml_safeDump (mkTravisYaml (Some lines) (otherKeys doc)))
    ∧ lines
      = List.filter (fun line => negb (JsString.includes line "update-types"))
          (default [] (before_script doc)) ++ [travisCommand]
    ∧ length (List.filter (fun line => JsString.strictEq line travisCommand) lines) = 1
    ∧ length (List.filter (fun line => JsString.includes line "update-types") lines) = 1.
Proof.
  intros Hf Hy Hback.
  rewrite (bind_returned _ _ _ _ _ (updateTravis_rewrites element w data doc Hf Hy)).
  erewrite updateTravis_rewrites; [| apply lookup_insert_eq | exact Hback].
  rewrite refreshBeforeScript_idempotent, (refreshBeforeScript_lines doc).
  do 2 eexists. split; [reflexivity|].
  split; [apply lookup_insert_eq|].
  split; [reflexivity|].
  split; [apply one_copy_of_travisCommand | apply one_marked_line].
Qed.

Lemma two_travis_updates_witness :
  ∃ (lines : list string) (w2 : World),
    (@updateTravis Demo.externals Demo.element;;
     @updateTravis Demo.externals Demo.element)
      (freshWorld {["repos/paper-button/.travis.yml"
                    := "npm run lint" +:+ String Demo.newline "npm run update-types"]})
    = (Returned tt, w2)
    ∧ files w2 !! "repos/paper-button/.travis.yml"
      = Some (Demo.safeDump (mkTravisYaml (Some lines) ∅))
    ∧ lines = ["npm run lint"; travisCommand]
    ∧ length (List.filter (fun line => JsString.strictEq line travisCommand) lines) = 1
    ∧ length (List.filter (fun line => JsString.includes line "update-types") lines) = 1.
Proof.
  apply (two_travis_updates_inject_one_command (ext := Demo.externals)
           Demo.element
           (freshWorld {["repos/paper-button/.travis.yml"
                         := "npm run lint" +:+ String Demo.newline "npm run update-types"]})
           ("npm run lint" +:+ String Demo.newline "npm run update-types")
           (mkTravisYaml (Some ["npm run lint"; "npm run update-types"]) ∅)).
  - vm_compute. reflexivity.
  - vm_compute. reflexivity.
  - vm_compute. reflexivity.
Defined.

(** C6: when [.travis.yml] does not exist, the CI step writes nothing (the
    files are unchanged and the path is still absent), logs a line that names
    the repository, and the pass goes on with the remaining steps: lock-file
    removal, install and generator run, then classification and the commit
    decision, on the world the log left. *)
Theorem missing_travis_is_logged_and_skipped {ext : Externals}
    (element : ElementRepo) (w0 w : World) (majorVersionBump updatedNpmScript : bool) :
  (let* packageJson := loadManifest element in updateManifest element packageJson) w0
  = (Returned (majorVersionBump, updatedNpmScript), w) →
  files w !! path_join (dir element) ".travis.yml" = None →
  ∃ (w' : World),
    updateTravis element w = (Returned tt, w')
    ∧ trace w' = trace w ++ [EvPathExists (path_join (dir element) ".travis.yml");
                             EvLog (ghRepo_name element +:+ ": Missing .travis.yaml")]
    ∧ files w' = files w
    ∧ files w' !! path_join (dir element) ".travis.yml" = None
    ∧ typescriptPass element w0
      = (installAndGenerate element;;
         commitChanges element majorVersionBump updatedNpmScript) w'.
Proof.
  intros Hm Hf. eexists. split; [apply updateTravis_missing, Hf|].
  split; [cbn [trace logged]; rewrite <- app_assoc; reflexivity|].
  split; [reflexivity|]. split; [exact Hf|].
  unfold typescriptPass. unfold bind at 1 in Hm. unfold bind at 1.
  destruct (loadManifest element w0) as [[packageJson|e] wl]; [|discriminate].
  unfold bind at 1. rewrite Hm.
  rewrite (bind_returned _ _ _ _ _ (updateTravis_missing element w Hf)). reflexivity.
Qed.

Lemma missing_travis_witness :
  ∃ (w' : World),
    @updateTravis Demo.externals Demo.element Demo.afterManifest
    = (Returned tt, w')
    ∧ trace w' = trace Demo.afterManifest
                 ++ [EvPathExists "repos/paper-button/.travis.yml";
                     EvLog "paper-button: Missing .travis.yaml"]
    ∧ files w' = files Demo.afterManifest
    ∧ files w' !! "repos/paper-button/.travis.yml" = None
    ∧ @typescriptPass Demo.externals Demo.element Demo.freshRepo
      = (@installAndGenerate Demo.externals Demo.element;;
         @commitChanges Demo.externals Demo.element true true) w'.
Proof.
  apply (missing_travis_is_logged_and_skipped (ext := Demo.externals)
           Demo.element Demo.freshRepo Demo.afterManifest true true).
  - vm_compute. reflexivity.
  - vm_compute. reflexivity.
Defined.

(** * Failing on the manifest *)

(** C4: when [package.json] is absent or does not parse, the pass throws
    [Error("<repository>: Missing or invalid package.json.")] having made a
    single external call, the read of the manifest: the trace gains that call
    and nothing else, so neither the CI config nor any subprocess was
    touched, and the files and the cache are as before. *)
Theorem unreadable_manifest_fails_first {ext : Externals}
    (element : ElementRepo) (w : World) :
  files w !! path_join (dir element) "package.json" = None
  ∨ (∃ data, files w !! path_join (dir element) "package.json" = Some data
             ∧ JSON_parse data = None) →
  ∃ (w' : World),
    typescriptPass element w
    = (Thrown (Error (ghRepo_name element +:+ ": Missing or invalid package.json.")), w')
    ∧ trace w' = trace w ++ [EvReadJson (path_join (dir element) "package.json")]
    ∧ files w' = files w
    ∧ latestGeneratorVersion w' = latestGeneratorVersion w.
Proof.
  intros Hbad. destruct (fse_readJson_fails _ w Hbad) as [e He].
  exists (logged (EvReadJson (path_join (dir element) "package.json")) w).
  split; [|repeat split].
  unfold typescriptPass. apply bind_thrown.
  unfold loadManifest, tryCatch. rewrite He. reflexivity.
Qed.

Lemma unreadable_manifest_witness :
  ∃ (w' : World),
    @typescriptPass Demo.externals Demo.element
      (freshWorld {["repos/paper-button/package.json" := "{ name: "]})
    = (Thrown (Error "paper-button: Missing or invalid package.json."), w')
    ∧ trace w' = [EvReadJson "repos/paper-button/package.json"]
    ∧ files w' = {["repos/paper-button/package.json" := "{ name: "]}
    ∧ latestGeneratorVersion w' = None.
Proof.
  refine (unreadable_manifest_fails_first (ext := Demo.externals)
            Demo.element (freshWorld {["repos/paper-button/package.json" := "{ name: "]}) _).
  right. exists "{ name: ". split; vm_compute; reflexivity.
Defined.

(** * Classifying the changed files *)

Lemma filter_keeps_all {A : Type} (f : A → bool) (l : list A) :
  (∀ x, In x l → f x = true) → List.filter f l = l.
Proof.
  induction l as [|x l IH]; intros Hall; [reflexivity|]. cbn [List.filter].
  rewrite (Hall x (or_introl eq_refl)), IH; [reflexivity|].
  intros y Hy. apply Hall. right. exact Hy.
Qed.

Lemma filter_drops_all {A : Type} (f : A → bool) (l : list A) :
  (∀ x, In x l → f x = true) → List.filter (fun x => negb (f x)) l = [].
Proof.
  induction l as [|x l IH]; intros Hall; [reflexivity|]. cbn [List.filter].
  rewrite (Hall x (or_introl eq_refl)). cbn [negb]. apply IH.
  intros y Hy. apply Hall. right. exact Hy.
Qed.

(** * The cached version *)

Lemma queries_snoc_query (t : list Event) :
  queries (t ++ [registryQuery]) = S (queries t).
Proof.
  assert (Hq : isQuery registryQuery = true) by (vm_compute; reflexivity).
  unfold queries. rewrite List.filter_app, length_app.
  cbn [List.filter]. rewrite Hq. cbn [length]. lia.
Qed.

(** A call that returns leaves the returned version in the cache and runs
    the query at most once. *)
Lemma resolved_is_stored {ext : Externals} (w w1 : World) (v : string) :
  getLatestGeneratorVersion w = (Returned v, w1) →
  latestGeneratorVersion w1 = Some v
  ∧ queries (trace w1) ≤ S (queries (trace w)).
Proof.
  intros Hv. destruct (latestGeneratorVersion w) as [v'|] eqn:Hc.
  - rewrite (getLatestGeneratorVersion_cached w v' Hc) in Hv.
    injection Hv as <- <-. split; [exact Hc | lia].
  - destruct (execFile "npm" ["info"; generatorPackageName] None (files w))
      as [[message|stdout] fs'] eqn:Hx.
    + rewrite (getLatestGeneratorVersion_rejected w message fs' Hc Hx) in Hv. discriminate.
    + destruct (Regex.matchLatest stdout) as [g|] eqn:Hm.
      * rewrite (getLatestGeneratorVersion_fetched w stdout g fs' Hc Hx Hm) in Hv.
        injection Hv as <- <-. cbn [latestGeneratorVersion trace].
        rewrite queries_snoc_query. split; [reflexivity | lia].
      * rewrite (getLatestGeneratorVersion_unmatched w stdout fs' Hc Hx Hm) in Hv.
        discriminate.
Qed.

(** Once a version is cached, no step of the run changes the cache or adds
    a query. *)
Lemma cached_version_is_kept {ext : Externals} (w1 w2 : World) (v : string) :
  latestGeneratorVersion w1 = Some v →
  run w1 w2 →
  latestGeneratorVersion w2 = Some v ∧ queries (trace w2) = queries (trace w1).
Proof.
  intros Hc Hrun. induction Hrun as [w|w wa wb Hrun IH Hstep].
  - split; [exact Hc | reflexivity].
  - destruct (IH Hc) as [Hca Hqa]. inversion Hstep as [w' Hw'|w' w'' Hcache Hq]; subst.
    + rewrite (getLatestGeneratorVersion_cached wa v Hca). split; assumption.
    + split; congruence.
Qed.


(** * Worked runs *)

Example matchLatest_npm_info :
  Regex.matchLatest "dist-tags: { latest: '1.5.12', next: '2.0.0' }" = Some "1.5.12".
Proof. vm_compute. reflexivity. Qed.

Example matchLatest_needs_three_parts :
  Regex.matchLatest "latest: '1.5'" = None.
Proof. vm_compute. reflexivity. Qed.

Example matchLatest_takes_the_leftmost :
  Regex.matchLatest "latest: '1.x' latest: '10.20.30' latest: '4.5.6'" = Some "10.20.30".
Proof. vm_compute. reflexivity. Qed.

Example endsWith_declaration_suffix :
  JsString.endsWith "paper-button.d.ts" ".d.ts" = true
  ∧ JsString.endsWith "paper-button.ts" ".d.ts" = false
  ∧ JsString.endsWith ".d.ts" ".d.ts" = true.
Proof. repeat split; vm_compute; reflexivity. Qed.

(** The whole pass on a checkout with an empty manifest, a lock file and one
    regenerated declaration file. *)
Example typescriptPass_on_a_fresh_checkout :
  let w := freshWorld {["repos/paper-button/package.json" := "{}";
                        "repos/paper-button/package-lock.json" := "{}";
                        "STATUS" := "package.json" +:+ String Demo.newline "paper-button.d.ts"]} in
  let r := @typescriptPass Demo.externals Demo.element w in
  r.1 = Returned tt
  ∧ latestGeneratorVersion r.2 = Some "1.2.3"
  ∧ trace r.2
    = [EvReadJson "repos/paper-button/package.json";
       registryQuery;
       EvWriteJson "repos/paper-button/package.json"
         (mkNpmConfig
            (Some {[generatorPackageName := "^1.2.3"; "bower" := "^1.8.0"]})
            (Some {[npmScriptName := npmScriptCommand]}) ∅);
       EvPathExists "repos/paper-button/.travis.yml";
       EvLog "paper-button: Missing .travis.yaml";
       EvPathExists "repos/paper-button/package-lock.json";
       EvRemove "repos/paper-button/package-lock.json";
       EvExecFile "npm" ["install"] (Some "repos/paper-button");
       EvExecFile "npm" ["run"; "update-types"] (Some "repos/paper-button");
       EvGetStatus;
       EvMakeCommit ["package.json"; "paper-button.d.ts"]
                    "Update and/or configure type declarations."].
Proof. vm_compute. repeat split. Qed.

(** A rejected install stops the pass: no generator run, no status, no commit. *)
Example typescriptPass_offline :
  let w := freshWorld {["repos/paper-button/package.json" := "{}";
                        "OFFLINE" := ""]} in
  let r := @typescriptPass Demo.externals Demo.element w in
  r.1 = Thrown (ChildProcessError "npm ERR! network")
  ∧ drop 3 (trace r.2)
    = [EvPathExists "repos/paper-button/.travis.yml";
       EvLog "paper-button: Missing .travis.yaml";
       EvPathExists "repos/paper-button/package-lock.json";
       EvExecFile "npm" ["install"] (Some "repos/paper-button")].
Proof. vm_compute. repeat split. Qed.

(** * Further properties *)

(** ** Strings *)

Lemma append_cons (c : ascii) (s t : string) : String c s +:+ t = String c (s +:+ t).
Proof. reflexivity. Qed.

Lemma append_empty_l (s : string) : "" +:+ s = s.
Proof. reflexivity. Qed.

Lemma append_assoc (s t u : string) : (s +:+ t) +:+ u = s +:+ t +:+ u.
Proof.
  induction s as [|c s IH]; [reflexivity|]. rewrite !append_cons, IH. reflexivity.
Qed.

Lemma append_empty_r (s : string) : s +:+ "" = s.
Proof. induction s as [|c s IH]; [reflexivity|]. rewrite append_cons, IH. reflexivity. Qed.

Lemma append_inv_head (s t u : string) : s +:+ t = s +:+ u → t = u.
Proof.
  induction s as [|c s IH]; [intros H; exact H|].
  rewrite !append_cons. intros [= H]. exact (IH H).
Qed.

Lemma stripPrefix_spec (p s r : string) :
  JsString.stripPrefix p s = Some r ↔ s = p +:+ r.
Proof.
  revert s. induction p as [|c p IH]; intros s.
  - rewrite append_empty_l. destruct s; cbn; split; intros H; congruence.
  - destruct s as [|d s]; cbn [JsString.stripPrefix]; rewrite append_cons.
    + split; discriminate.
    + destruct (decide (c = d)) as [->|Hne].
      * rewrite IH. split; [intros ->; reflexivity | intros [= ->]; reflexivity].
      * split; [discriminate | intros [= H _]; congruence].
Qed.

Lemma startsWith_spec (s p : string) :
  JsString.startsWith s p = true ↔ ∃ post, s = p +:+ post.
Proof.
  revert s. induction p as [|c p IH]; intros s.
  - destruct s; cbn; split; eauto.
  - destruct s as [|d s]; cbn [JsString.startsWith].
    + split; [discriminate | intros [post H]; rewrite append_cons in H; discriminate].
    + destruct (decide (c = d)) as [->|Hne].
      * rewrite IH. split; intros [post H]; exists post.
        -- rewrite append_cons, H. reflexivity.
        -- rewrite append_cons in H. congruence.
      * split; [discriminate|]. intros [post H]. rewrite append_cons in H. congruence.
Qed.

(** [endsWith] holds exactly of the strings that end with the suffix. *)
Lemma endsWith_spec (s suffix : string) :
  JsString.endsWith s suffix = true ↔ ∃ pre, s = pre +:+ suffix.
Proof.
  induction s as [|c s IH].
  - cbn [JsString.endsWith]. destruct (decide ("" = suffix)) as [<-|Hne].
    + split; [exists ""; reflexivity | reflexivity].
    + split; [discriminate|]. intros [pre H]. destruct pre; [rewrite append_empty_l in H; congruence|discriminate].
  - cbn [JsString.endsWith]. destruct (decide (String c s = suffix)) as [<-|Hne].
    + split; [exists ""; reflexivity | reflexivity].
    + rewrite IH. split.
      * intros [pre ->]. exists (String c pre). reflexivity.
      * intros [pre H]. destruct pre as [|d pre]; [rewrite append_empty_l in H; congruence|].
        rewrite append_cons in H. injection H as _ ->. eauto.
Qed.

(** [includes] holds exactly of the strings that contain the substring. *)
Lemma includes_spec (s sub : string) :
  JsString.includes s sub = true ↔ ∃ pre post, s = pre +:+ sub +:+ post.
Proof.
  induction s as [|c s IH].
  - cbn [JsString.includes]. destruct (JsString.startsWith "" sub) eqn:Hs.
    + apply startsWith_spec in Hs as [post H]. split; [|reflexivity].
      intros _. exists "", post. exact H.
    + split; [discriminate|]. intros (pre & post & H).
      destruct pre; [|discriminate]. rewrite append_empty_l in H.
      assert (JsString.startsWith "" sub = true) by (apply startsWith_spec; eauto).
      congruence.
  - cbn [JsString.includes]. destruct (JsString.startsWith (String c s) sub) eqn:Hs.
    + apply startsWith_spec in Hs as [post H]. split; [|reflexivity].
      intros _. exists "", post. exact H.
    + rewrite IH. split.
      * intros (pre & post & ->). exists (String c pre), post. reflexivity.
      * intros (pre & post & H). destruct pre as [|d pre].
        -- rewrite append_empty_l in H.
           assert (JsString.startsWith (String c s) sub = true)
             by (apply startsWith_spec; eauto).
           congruence.
        -- rewrite append_cons in H. injection H as _ ->. eauto.
Qed.

(** ** The pattern *)

(** What stops a run of digits: the end of the string or another character. *)
Lemma digits_split (s d r : string) :
  Regex.digits s = (d, r) →
  s = d +:+ r ∧ digitString d = true
  ∧ (∀ c r', r = String c r' → Regex.isDigit c = false).
Proof.
  revert d r. induction s as [|c s IH]; intros d r; cbn [Regex.digits].
  - intros [= <- <-]. repeat split. discriminate.
  - destruct (Regex.isDigit c) eqn:Hc.
    + destruct (Regex.digits s) as [d0 r0]. intros [= <- <-].
      destruct (IH d0 r0 eq_refl) as (-> & Hd & Hr).
      repeat split; [cbn [digitString]; rewrite Hc, Hd; reflexivity | exact Hr].
    + intros [= <- <-]. repeat split. intros c' r' [= <- <-]. exact Hc.
Qed.

Lemma digits_append (d r : string) :
  digitString d = true →
  (∀ c r', r = String c r' → Regex.isDigit c = false) →
  Regex.digits (d +:+ r) = (d, r).
Proof.
  intros Hd Hr. induction d as [|c d IH].
  - rewrite append_empty_l. destruct r as [|c r]; [reflexivity|].
    cbn [Regex.digits]. rewrite (Hr c r eq_refl). reflexivity.
  - cbn [digitString] in Hd. apply andb_true_iff in Hd as [Hc Hd].
    rewrite append_cons. cbn [Regex.digits]. rewrite Hc, (IH Hd). reflexivity.
Qed.

Lemma digitsThen_split (stop s d r : string) :
  Regex.digitsThen stop s = Some (d, r) →
  s = d +:+ stop +:+ r ∧ digitString d = true ∧ d ≠ "".
Proof.
  intros H. pose proof (digitsThen_nonempty stop s d r H) as Hne.
  unfold Regex.digitsThen in H. destruct (Regex.digits s) as [d0 r0] eqn:Hs.
  destruct (digits_split s d0 r0 Hs) as (-> & Hd & _).
  destruct d0 as [|c d0]; [discriminate|].
  destruct (JsString.stripPrefix stop r0) as [r1|] eqn:Hp; [|discriminate].
  injection H as <- <-. apply stripPrefix_spec in Hp as ->. repeat split; assumption.
Qed.

Lemma digitsThen_append (stop d r : string) (c0 : ascii) (stop' : string) :
  stop = String c0 stop' → Regex.isDigit c0 = false →
  digitString d = true → d ≠ "" →
  Regex.digitsThen stop (d +:+ stop +:+ r) = Some (d, r).
Proof.
  intros -> Hc0 Hd Hne. unfold Regex.digitsThen.
  rewrite digits_append; [|exact Hd|].
  - destruct d as [|c d]; [congruence|].
    rewrite (proj2 (stripPrefix_spec _ _ r) eq_refl). reflexivity.
  - rewrite append_cons. intros c r' [= <- _]. exact Hc0.
Qed.

Lemma matchHere_split (s g : string) :
  Regex.matchHere s = Some g →
  ∃ a b c rest,
    s = "latest: '" +:+ g +:+ "'" +:+ rest
    ∧ g = a +:+ "." +:+ b +:+ "." +:+ c
    ∧ (digitString a = true ∧ a ≠ "")
    ∧ (digitString b = true ∧ b ≠ "")
    ∧ (digitString c = true ∧ c ≠ "").
Proof.
  unfold Regex.matchHere.
  destruct (JsString.stripPrefix "latest: '" s) as [r0|] eqn:H0; [|discriminate].
  destruct (Regex.digitsThen "." r0) as [[a r1]|] eqn:Ha; [|discriminate].
  destruct (Regex.digitsThen "." r1) as [[b r2]|] eqn:Hb; [|discriminate].
  destruct (Regex.digitsThen "'" r2) as [[c r3]|] eqn:Hc; [|discriminate].
  intros [= <-]. apply stripPrefix_spec in H0 as ->.
  apply digitsThen_split in Ha as (-> & Hda & Hna).
  apply digitsThen_split in Hb as (-> & Hdb & Hnb).
  apply digitsThen_split in Hc as (-> & Hdc & Hnc).
  exists a, b, c, r3. split; [|repeat split; assumption].
  f_equal. rewrite !append_assoc. reflexivity.
Qed.

Lemma matchHere_append (a b c rest : string) :
  digitString a = true → a ≠ "" →
  digitString b = true → b ≠ "" →
  digitString c = true → c ≠ "" →
  Regex.matchHere ("latest: '" +:+ (a +:+ "." +:+ b +:+ "." +:+ c) +:+ "'" +:+ rest)
  = Some (a +:+ "." +:+ b +:+ "." +:+ c).
Proof.
  intros Hda Hna Hdb Hnb Hdc Hnc. unfold Regex.matchHere.
  rewrite (proj2 (stripPrefix_spec "latest: '" _ _) eq_refl).
  rewrite !append_assoc.
  rewrite (digitsThen_append "." a _ "." "" eq_refl eq_refl Hda Hna).
  rewrite (digitsThen_append "." b _ "." "" eq_refl eq_refl Hdb Hnb).
  rewrite (digitsThen_append "'" c _ "'" "" eq_refl eq_refl Hdc Hnc).
  reflexivity.
Qed.

Lemma matchLatest_found (pre s g : string) :
  Regex.matchHere s = Some g → is_Some (Regex.matchLatest (pre +:+ s)).
Proof.
  intros Hs. induction pre as [|c pre IH].
  - rewrite append_empty_l. destruct s; cbn [Regex.matchLatest]; rewrite Hs; eauto.
  - rewrite append_cons. cbn [Regex.matchLatest].
    destruct (Regex.matchHere (String c (pre +:+ s))); [eauto | exact IH].
Qed.

(** X1: whatever the pattern captures is three non-empty runs of digits
    joined by dots, and the output really contains it between [latest: ']
    and a closing quote; in particular the captured group is never empty,
    so the [!match[1]] test of the resolver never fires on a match. *)
Theorem matched_version_is_a_quoted_triple (stdout g : string) :
  Regex.matchLatest stdout = Some g →
  ∃ pre rest a b c,
    stdout = pre +:+ "latest: '" +:+ g +:+ "'" +:+ rest
    ∧ g = a +:+ "." +:+ b +:+ "." +:+ c
    ∧ (digitString a = true ∧ a ≠ "")
    ∧ (digitString b = true ∧ b ≠ "")
    ∧ (digitString c = true ∧ c ≠ "")
    ∧ g ≠ "".
Proof.
  induction stdout as [|ch stdout IH]; cbn [Regex.matchLatest].
  - destruct (Regex.matchHere "") as [g'|] eqn:Hm; [|discriminate].
    intros [= <-]. pose proof (matchHere_nonempty _ _ Hm) as Hne.
    destruct (matchHere_split _ _ Hm) as (a & b & c & rest & Hs & Hg & Ha & Hb & Hc).
    exists "", rest, a, b, c. rewrite append_empty_l. tauto.
  - destruct (Regex.matchHere (String ch stdout)) as [g'|] eqn:Hm.
    + intros [= <-]. pose proof (matchHere_nonempty _ _ Hm) as Hne.
      destruct (matchHere_split _ _ Hm) as (a & b & c & rest & Hs & Hg & Ha & Hb & Hc).
      exists "", rest, a, b, c. rewrite append_empty_l. tauto.
    + intros Hrest.
      destruct (IH Hrest) as (pre & rest & a & b & c & -> & Hg & Ha & Hb & Hc & Hne).
      exists (String ch pre), rest, a, b, c. rewrite append_cons. tauto.
Qed.

Lemma matched_version_witness :
  ∃ pre rest a b c,
    "dist-tags: { latest: '1.5.12', next: '2.0.0' }"
    = pre +:+ "latest: '" +:+ "1.5.12" +:+ "'" +:+ rest
    ∧ "1.5.12" = a +:+ "." +:+ b +:+ "." +:+ c
    ∧ (digitString a = true ∧ a ≠ "")
    ∧ (digitString b = true ∧ b ≠ "")
    ∧ (digitString c = true ∧ c ≠ "")
    ∧ "1.5.12" ≠ "".
Proof.
  refine (matched_version_is_a_quoted_triple
            "dist-tags: { latest: '1.5.12', next: '2.0.0' }" "1.5.12" _).
  vm_compute. reflexivity.
Defined.

(** X2: an output that contains [latest: '<a>.<b>.<c>'] with three non-empty
    runs of digits always matches, wherever the tag stands; when the output
    starts with the tag, the captured group is that very version. *)
Theorem quoted_triple_is_matched (pre rest a b c : string) :
  digitString a = true → a ≠ "" →
  digitString b = true → b ≠ "" →
  digitString c = true → c ≠ "" →
  is_Some (Regex.matchLatest
             (pre +:+ "latest: '" +:+ (a +:+ "." +:+ b +:+ "." +:+ c) +:+ "'" +:+ rest))
  ∧ Regex.matchLatest ("latest: '" +:+ (a +:+ "." +:+ b +:+ "." +:+ c) +:+ "'" +:+ rest)
    = Some (a +:+ "." +:+ b +:+ "." +:+ c).
Proof.
  intros Hda Hna Hdb Hnb Hdc Hnc.
  pose proof (matchHere_append a b c rest Hda Hna Hdb Hnb Hdc Hnc) as Hm.
  split; [eapply matchLatest_found, Hm|].
  change (Regex.matchLatest ("latest: '" +:+ (a +:+ "." +:+ b +:+ "." +:+ c) +:+ "'" +:+ rest))
    with (match Regex.matchHere
                  ("latest: '" +:+ (a +:+ "." +:+ b +:+ "." +:+ c) +:+ "'" +:+ rest) with
          | Some g => Some g
          | None => Regex.matchLatest
                      ("atest: '" +:+ (a +:+ "." +:+ b +:+ "." +:+ c) +:+ "'" +:+ rest)
          end).
  rewrite Hm. reflexivity.
Qed.

Lemma quoted_triple_witness :
  is_Some (Regex.matchLatest
             ("versions: " +:+ "latest: '" +:+ ("10" +:+ "." +:+ "0" +:+ "." +:+ "3")
              +:+ "'" +:+ ","))
  ∧ Regex.matchLatest ("latest: '" +:+ ("10" +:+ "." +:+ "0" +:+ "." +:+ "3") +:+ "'" +:+ ",")
    = Some ("10" +:+ "." +:+ "0" +:+ "." +:+ "3").
Proof.
  refine (quoted_triple_is_matched "versions: " "," "10" "0" "3" _ _ _ _ _ _);
    first [reflexivity | discriminate].
Defined.

(** ** The manifest stage *)

Lemma loadManifest_returned {ext : Externals} (element : ElementRepo)
    (packageJson : NpmConfig) (w wl : World) :
  loadManifest element w = (Returned packageJson, wl) →
  wl = logged (EvReadJson (path_join (dir element) "package.json")) w
  ∧ ∃ data, files w !! path_join (dir element) "package.json" = Some data
            ∧ JSON_parse data = Some packageJson.
Proof.
  unfold loadManifest, tryCatch, fse_readJson, bind, emit, getFiles, throw, ret.
  cbn [files logged].
  destruct (files w !! path_join (dir element) "package.json") as [data|]; [|discriminate].
  destruct (JSON_parse data) as [object|] eqn:Hp; [|discriminate].
  intros [= <- <-]. split; [reflexivity|]. exists data. split; [reflexivity | exact Hp].
Qed.

Lemma resolver_thrown {ext : Externals} (w w1 : World) (e : Exn) :
  getLatestGeneratorVersion w = (Thrown e, w1) →
  latestGeneratorVersion w = None
  ∧ latestGeneratorVersion w1 = None
  ∧ trace w1 = trace w ++ [registryQuery]
  ∧ (e = Error "Could not find latest version of @polymer/gen-typescript-declarations"
     ∨ ∃ message, e = ChildProcessError message).
Proof.
  intros Hv. destruct (latestGeneratorVersion w) as [v|] eqn:Hc.
  - rewrite (getLatestGeneratorVersion_cached w v Hc) in Hv. discriminate.
  - destruct (execFile "npm" ["info"; generatorPackageName] None (files w))
      as [[message|stdout] fs'] eqn:Hx.
    + rewrite (getLatestGeneratorVersion_rejected w message fs' Hc Hx) in Hv.
      injection Hv as <- <-. cbn [latestGeneratorVersion trace]. eauto 10.
    + destruct (Regex.matchLatest stdout) as [g|] eqn:Hm.
      * rewrite (getLatestGeneratorVersion_fetched w stdout g fs' Hc Hx Hm) in Hv.
        discriminate.
      * rewrite (getLatestGeneratorVersion_unmatched w stdout fs' Hc Hx Hm) in Hv.
        injection Hv as <- <-. cbn [latestGeneratorVersion trace]. eauto 10.
Qed.

(** X3: when the manifest is read but the resolver throws, the pass throws
    that same value; it has made two external calls, the read of the
    manifest and the registry query, so nothing was written, no CI file was
    looked at and nothing was installed; the cache is still empty, and the
    thrown value is the "could not find" error or the rejection of [npm]. *)
Theorem unresolved_version_stops_the_pass {ext : Externals}
    (element : ElementRepo) (packageJson : NpmConfig) (w wl w1 : World) (e : Exn) :
  loadManifest element w = (Returned packageJson, wl) →
  getLatestGeneratorVersion wl = (Thrown e, w1) →
  typescriptPass element w = (Thrown e, w1)
  ∧ trace w1 = trace w ++ [EvReadJson (path_join (dir element) "package.json");
                           registryQuery]
  ∧ latestGeneratorVersion w1 = None
  ∧ (e = Error "Could not find latest version of @polymer/gen-typescript-declarations"
     ∨ ∃ message, e = ChildProcessError message).
Proof.
  intros Hl Hv.
  destruct (loadManifest_returned element packageJson w wl Hl) as [Hwl _].
  destruct (resolver_thrown wl w1 e Hv) as (_ & Hc1 & Ht1 & He).
  split; [|split; [|split; assumption]].
  - unfold typescriptPass. rewrite (bind_returned _ _ _ _ _ Hl).
    apply bind_thrown. unfold updateManifest. cbv zeta. apply bind_thrown. exact Hv.
  - rewrite Ht1, Hwl. cbn [trace logged]. rewrite <- app_assoc. reflexivity.
Qed.

Lemma unresolved_version_witness :
  @typescriptPass Demo.externals Demo.element
    (freshWorld {["repos/paper-button/package.json" := "{}";
                  "REGISTRY" := "npm ERR! 404 Not Found"]})
  = (Thrown (Error "Could not find latest version of @polymer/gen-typescript-declarations"),
     mkWorld {["repos/paper-button/package.json" := "{}";
               "REGISTRY" := "npm ERR! 404 Not Found"]} None
       [EvReadJson "repos/paper-button/package.json"; registryQuery])
  ∧ trace (mkWorld {["repos/paper-button/package.json" := "{}";
                     "REGISTRY" := "npm ERR! 404 Not Found"]} None
             [EvReadJson "repos/paper-button/package.json"; registryQuery])
    = [] ++ [EvReadJson "repos/paper-button/package.json"; registryQuery]
  ∧ (None : option string) = None
  ∧ (Error "Could not find latest version of @polymer/gen-typescript-declarations"
     = Error "Could not find latest version of @polymer/gen-typescript-declarations"
     ∨ ∃ message,
         Error "Could not find latest version of @polymer/gen-typescript-declarations"
         = ChildProcessError message).
Proof.
  refine (unresolved_version_stops_the_pass (ext := Demo.externals) Demo.element
            (mkNpmConfig None None ∅)
            (freshWorld {["repos/paper-button/package.json" := "{}";
                          "REGISTRY" := "npm ERR! 404 Not Found"]})
            (mkWorld {["repos/paper-button/package.json" := "{}";
                       "REGISTRY" := "npm ERR! 404 Not Found"]} None
               [EvReadJson "repos/paper-button/package.json"])
            (mkWorld {["repos/paper-button/package.json" := "{}";
                       "REGISTRY" := "npm ERR! 404 Not Found"]} None
               [EvReadJson "repos/paper-button/package.json"; registryQuery])
            (Error "Could not find latest version of @polymer/gen-typescript-declarations")
            _ _).
  - vm_compute. reflexivity.
  - vm_compute. reflexivity.
Defined.

(** X4: the manifest stage changes nothing but the three entries it owns:
    every devDependency other than the generator and bower, every script
    other than [update-types], and every other property of the manifest is
    written back as it was read. *)
Theorem manifest_update_keeps_other_entries {ext : Externals}
    (element : ElementRepo) (packageJson : NpmConfig) (w w1 : World) (v : string) :
  getLatestGeneratorVersion w = (Returned v, w1) →
  ∃ (written : NpmConfig) (deps scr : gmap string string) (flags : bool * bool),
    updateManifest element packageJson w
    = (Returned flags,
       withFiles (<[path_join (dir element) "package.json" := JSON_stringify written]>
                    (files w1))
                 (logged (EvWriteJson (path_join (dir element) "package.json") written) w1))
    ∧ written = mkNpmConfig (Some deps) (Some scr) (otherFields packageJson)
    ∧ (∀ name, name ≠ generatorPackageName → name ≠ "bower" →
         deps !! name = devDependencies packageJson ≫= (.!! name))
    ∧ (∀ name, name ≠ npmScriptName →
         scr !! name = scripts packageJson ≫= (.!! name)).
Proof.
  intros Hv. rewrite updateManifest_defaults.
  destruct (updateManifest_core element (default ∅ (devDependencies packageJson))
              (default ∅ (scripts packageJson)) (otherFields packageJson) w w1 v Hv)
    as (written & deps & scr & bump & changed & Hrun & -> & Hdeps & Hscr & _ & _).
  exists (mkNpmConfig (Some deps) (Some scr) (otherFields packageJson)), deps, scr,
         (bump, changed).
  split; [exact Hrun|]. split; [reflexivity|]. split.
  - intros name Hg Hb. subst deps.
    destruct (default ∅ (devDependencies packageJson) !! "bower");
      rewrite ?(lookup_insert_ne _ "bower") by congruence;
      rewrite lookup_insert_ne by congruence; apply default_lookup.
  - intros name Hn. subst scr.
    destruct (decide _); [|rewrite lookup_insert_ne by congruence]; apply default_lookup.
Qed.

Lemma manifest_update_keeps_witness :
  ∃ (written : NpmConfig) (deps scr : gmap string string) (flags : bool * bool),
    @updateManifest Demo.externals Demo.element
      (mkNpmConfig (Some {["mocha" := "^5.0.0"]}) (Some {["test" := "wct"]}) ∅)
      (freshWorld ∅)
    = (Returned flags,
       withFiles (<["repos/paper-button/package.json" := Demo.stringify written]> ∅)
                 (logged (EvWriteJson "repos/paper-button/package.json" written)
                         (mkWorld ∅ (Some "1.2.3") [registryQuery])))
    ∧ written = mkNpmConfig (Some deps) (Some scr) ∅
    ∧ (∀ name, name ≠ generatorPackageName → name ≠ "bower" →
         deps !! name = ({["mocha" := "^5.0.0"]} : gmap string string) !! name)
    ∧ (∀ name, name ≠ npmScriptName →
         scr !! name = ({["test" := "wct"]} : gmap string string) !! name).
Proof.
  refine (manifest_update_keeps_other_entries (ext := Demo.externals) Demo.element
            (mkNpmConfig (Some {["mocha" := "^5.0.0"]}) (Some {["test" := "wct"]}) ∅)
            (freshWorld ∅) (mkWorld ∅ (Some "1.2.3") [registryQuery]) "1.2.3" _).
  vm_compute. reflexivity.
Defined.

(** X5: the two manifest flags say exactly what happened.  The
    major-version-bump flag is raised if and only if the generator had no
    entry or its range does not satisfy the resolved version; the
    script-updated flag is raised if and only if the [update-types] script
    was not already the fixed command. *)
Theorem manifest_flags_are_exact {ext : Externals}
    (element : ElementRepo) (packageJson : NpmConfig) (w w1 : World) (v : string) :
  getLatestGeneratorVersion w = (Returned v, w1) →
  ∃ (majorVersionBump updatedNpmScript : bool) (w2 : World),
    updateManifest element packageJson w
    = (Returned (majorVersionBump, updatedNpmScript), w2)
    ∧ (majorVersionBump = true ↔
       devDependencies packageJson ≫= (.!! generatorPackageName) = None
       ∨ ∃ range, devDependencies packageJson ≫= (.!! generatorPackageName) = Some range
                  ∧ semver_satisfies v range = false)
    ∧ (updatedNpmScript = true ↔
       scripts packageJson ≫= (.!! npmScriptName) ≠ Some npmScriptCommand).
Proof.
  intros Hv.
  destruct (updateManifest_written element packageJson w w1 v Hv)
    as (written & deps & scr & bump & changed & Hrun & _ & _ & _ & _ & -> & ->).
  do 3 eexists. split; [exact Hrun|]. split.
  - destruct (devDependencies packageJson ≫= (.!! generatorPackageName)) as [range|].
    + rewrite negb_true_iff. split.
      * intros Hs. right. exists range. split; [reflexivity | exact Hs].
      * intros [Hn | (r & [= <-] & Hs)]; [discriminate | exact Hs].
    + split; [left; reflexivity | reflexivity].
  - rewrite negb_true_iff, bool_decide_eq_false. reflexivity.
Qed.

Lemma manifest_flags_witness :
  ∃ (majorVersionBump updatedNpmScript : bool) (w2 : World),
    @updateManifest Demo.externals Demo.element
      (mkNpmConfig (Some {[generatorPackageName := "^0.9.0"]})
                   (Some {[npmScriptName := npmScriptCommand]}) ∅)
      (freshWorld ∅)
    = (Returned (majorVersionBump, updatedNpmScript), w2)
    ∧ (majorVersionBump = true ↔
       ({[generatorPackageName := "^0.9.0"]} : gmap string string) !! generatorPackageName
       = None
       ∨ ∃ range,
           ({[generatorPackageName := "^0.9.0"]} : gmap string string)
             !! generatorPackageName = Some range
           ∧ Demo.satisfies "1.2.3" range = false)
    ∧ (updatedNpmScript = true ↔
       ({[npmScriptName := npmScriptCommand]} : gmap string string) !! npmScriptName
       ≠ Some npmScriptCommand).
Proof.
  refine (manifest_flags_are_exact (ext := Demo.externals) Demo.element
            (mkNpmConfig (Some {[generatorPackageName := "^0.9.0"]})
                         (Some {[npmScriptName := npmScriptCommand]}) ∅)
            (freshWorld ∅) (mkWorld ∅ (Some "1.2.3") [registryQuery]) "1.2.3" _).
  vm_compute. reflexivity.
Defined.

(** ** A pass as part of a process run *)

Section Runs.
Context {ext : Externals}.

Lemma run_trans (w1 w2 w3 : World) : run w1 w2 → run w2 w3 → run w1 w3.
Proof.
  intros H12 H23. induction H23 as [|w2 wa wb _ IH Hstep]; [exact H12|].
  eapply run_step; [apply IH, H12 | exact Hstep].
Qed.

Lemma runs_ret {A : Type} (a : A) : runs (ret a).
Proof. intros w. apply run_refl. Qed.

Lemma runs_throw {A : Type} (e : Exn) : runs (throw (A := A) e).
Proof. intros w. apply run_refl. Qed.

Lemma runs_getFiles : runs getFiles.
Proof. intros w. apply run_refl. Qed.

Lemma runs_putFiles (fs : gmap string string) : runs (putFiles fs).
Proof.
  intros w. eapply run_step; [apply run_refl|]. apply step_other; reflexivity.
Qed.

Lemma runs_emit (e : Event) : isQuery e = false → runs (emit e).
Proof.
  intros He w. eapply run_step; [apply run_refl|]. apply step_other; [reflexivity|].
  cbn [emit snd logged trace]. unfold queries.
  rewrite List.filter_app. cbn [List.filter]. rewrite He, app_nil_r. reflexivity.
Qed.

Lemma runs_bind {A B : Type} (m : M A) (k : A → M B) :
  runs m → (∀ a, runs (k a)) → runs (bind m k).
Proof.
  intros Hm Hk w. unfold bind. specialize (Hm w).
  destruct (m w) as [[a|e] w']; cbn [snd] in *; [|exact Hm].
  eapply run_trans; [exact Hm | apply Hk].
Qed.

Lemma runs_tryCatch {A : Type} (m : M A) (handler : Exn → M A) :
  runs m → (∀ e, runs (handler e)) → runs (tryCatch m handler).
Proof.
  intros Hm Hh w. unfold tryCatch. specialize (Hm w).
  destruct (m w) as [[a|e] w']; cbn [snd] in *; [exact Hm|].
  eapply run_trans; [exact Hm | apply Hh].
Qed.

Lemma runs_getLatestGeneratorVersion : runs getLatestGeneratorVersion.
Proof. intros w. eapply run_step; [apply run_refl | apply step_resolve]. Qed.

(** A subprocess other than the registry query. *)
Lemma runs_execFilePromise (command : string) (args : list string) (cwd : option string) :
  isQuery (EvExecFile command args cwd) = false →
  runs (execFilePromise command args cwd).
Proof.
  intros Hq. unfold execFilePromise.
  apply runs_bind; [apply runs_emit, Hq | intros _].
  apply runs_bind; [apply runs_getFiles | intros fs].
  destruct (execFile command args cwd fs) as [[message|stdout] fs'];
    (apply runs_bind; [apply runs_putFiles | intros _]);
    [apply runs_throw | apply runs_ret].
Qed.

Lemma runs_loadManifest (element : ElementRepo) : runs (loadManifest element).
Proof.
  unfold loadManifest. apply runs_tryCatch; [|intros e; apply runs_throw].
  unfold fse_readJson.
  apply runs_bind; [apply runs_emit; reflexivity | intros _].
  apply runs_bind; [apply runs_getFiles | intros fs].
  repeat case_match; first [apply runs_throw | apply runs_ret].
Qed.

Lemma runs_getProp (o : option (gmap string string)) (key : string) :
  runs (getProp o key).
Proof. destruct o; [apply runs_ret | apply runs_throw]. Qed.

Lemma runs_setProp (o : option (gmap string string)) (key value : string) :
  runs (setProp o key value).
Proof. destruct o; [apply runs_ret | apply runs_throw]. Qed.

Lemma runs_fse_writeJson (file : string) (object : NpmConfig) :
  runs (fse_writeJson file object).
Proof.
  unfold fse_writeJson.
  apply runs_bind; [apply runs_emit; reflexivity | intros _].
  apply runs_bind; [apply runs_getFiles | intros fs; apply runs_putFiles].
Qed.

Lemma runs_updateManifest (element : ElementRepo) (packageJson : NpmConfig) :
  runs (updateManifest element packageJson).
Proof.
  unfold updateManifest. cbv zeta.
  apply runs_bind; [apply runs_getLatestGeneratorVersion | intros v].
  apply runs_bind; [apply runs_getProp | intros old].
  apply runs_bind; [apply runs_setProp | intros deps].
  apply runs_bind; [apply runs_getProp | intros bower].
  apply runs_bind.
  { destruct bower; [apply runs_ret|].
    apply runs_bind; [apply runs_setProp | intros deps'; apply runs_ret]. }
  intros packageJson'.
  apply runs_bind; [apply runs_getProp | intros script].
  apply runs_bind.
  { destruct (decide _); [apply runs_ret|].
    apply runs_bind; [apply runs_setProp | intros scr; apply runs_ret]. }
  intros [packageJson'' updated].
  apply runs_bind; [apply runs_fse_writeJson | intros _; apply runs_ret].
Qed.

Lemma runs_updateTravis (element : ElementRepo) : runs (updateTravis element).
Proof.
  unfold updateTravis, fse_pathExists, fse_readFile, fse_writeFile, console_log.
  cbv zeta.
  apply runs_bind.
  { apply runs_bind; [apply runs_emit; reflexivity | intros _].
    apply runs_bind; [apply runs_getFiles | intros fs; apply runs_ret]. }
  intros [|]; [|apply runs_emit; reflexivity].
  apply runs_bind.
  { apply runs_bind; [apply runs_emit; reflexivity | intros _].
    apply runs_bind; [apply runs_getFiles | intros fs].
    case_match; [apply runs_ret | apply runs_throw]. }
  intros data. destruct (yaml_safeLoad data) as [[doc|[e|text]]|];
    try apply runs_throw;
    (apply runs_bind; [apply runs_emit; reflexivity | intros _]);
    (apply runs_bind; [apply runs_getFiles | intros fs; apply runs_putFiles]).
Qed.

Lemma install_is_not_the_query (args : list string) (d : string) :
  isQuery (EvExecFile "npm" args (Some d)) = false.
Proof. apply bool_decide_eq_false. intros (_ & _ & H). discriminate. Qed.

Lemma runs_installAndGenerate (element : ElementRepo) : runs (installAndGenerate element).
Proof.
  unfold installAndGenerate, fse_pathExists, fse_remove. cbv zeta.
  apply runs_bind.
  { apply runs_bind; [apply runs_emit; reflexivity | intros _].
    apply runs_bind; [apply runs_getFiles | intros fs; apply runs_ret]. }
  intros present. apply runs_bind.
  { destruct present; [|apply runs_ret].
    apply runs_bind; [apply runs_emit; reflexivity | intros _].
    apply runs_bind; [apply runs_getFiles | intros fs; apply runs_putFiles]. }
  intros _.
  apply runs_bind;
    [apply runs_execFilePromise, install_is_not_the_query | intros _].
  apply runs_bind;
    [apply runs_execFilePromise, install_is_not_the_query | intros _; apply runs_ret].
Qed.

Lemma runs_classifyChanges (element : ElementRepo) (status : list string) (c : Changes) :
  runs (classifyChanges element status c).
Proof.
  revert c. induction status as [|filepath rest IH]; intros c; cbn [classifyChanges].
  - apply runs_ret.
  - repeat case_match; try apply IH.
    apply runs_bind; [apply runs_emit; reflexivity | intros _; apply IH].
Qed.

Lemma runs_commitChanges (element : ElementRepo) (majorVersionBump updatedNpmScript : bool) :
  runs (commitChanges element majorVersionBump updatedNpmScript).
Proof.
  unfold commitChanges, repo_getStatus, makeCommit, console_log.
  apply runs_bind.
  { apply runs_bind; [apply runs_emit; reflexivity | intros _].
    apply runs_bind; [apply runs_getFiles | intros fs].
    destruct (getStatus element fs); [apply runs_throw | apply runs_ret]. }
  intros status. apply runs_bind; [apply runs_classifyChanges | intros c].
  destruct (_ || _ || _ || _); [|apply runs_emit; reflexivity].
  apply runs_bind; [apply runs_emit; reflexivity | intros _].
  apply runs_bind; [apply runs_getFiles | intros fs].
  destruct (commitRejection element (commitFiles c) commitMessage fs);
    [apply runs_throw | apply runs_ret].
Qed.

Lemma runs_typescriptPass (element : ElementRepo) : runs (typescriptPass element).
Proof.
  unfold typescriptPass.
  apply runs_bind; [apply runs_loadManifest | intros packageJson].
  apply runs_bind; [apply runs_updateManifest | intros [bump changed]].
  apply runs_bind; [apply runs_updateTravis | intros _].
  apply runs_bind; [apply runs_installAndGenerate | intros _].
  apply runs_commitChanges.
Qed.

End Runs.

(** X7: a pass started with a version in the cache, whatever its outcome,
    is a stretch of a process run in which the cache keeps that version and
    the registry query is not executed. *)
Theorem pass_with_cached_version_never_queries {ext : Externals}
    (element : ElementRepo) (w : World) (v : string) :
  latestGeneratorVersion w = Some v →
  run w (typescriptPass element w).2
  ∧ latestGeneratorVersion (typescriptPass element w).2 = Some v
  ∧ queries (trace (typescriptPass element w).2) = queries (trace w).
Proof.
  intros Hc. pose proof (runs_typescriptPass element w) as Hrun.
  split; [exact Hrun|]. exact (cached_version_is_kept w _ v Hc Hrun).
Qed.

Lemma pass_with_cached_version_witness :
  @run Demo.externals
    (mkWorld {["repos/paper-button/package.json" := "{}"]} (Some "1.0.0") [])
    (@typescriptPass Demo.externals Demo.element
       (mkWorld {["repos/paper-button/package.json" := "{}"]} (Some "1.0.0") [])).2
  ∧ latestGeneratorVersion
      (@typescriptPass Demo.externals Demo.element
         (mkWorld {["repos/paper-button/package.json" := "{}"]} (Some "1.0.0") [])).2
    = Some "1.0.0"
  ∧ queries (trace
      (@typescriptPass Demo.externals Demo.element
         (mkWorld {["repos/paper-button/package.json" := "{}"]} (Some "1.0.0") [])).2)
    = queries (trace (mkWorld {["repos/paper-button/package.json" := "{}"]}
                              (Some "1.0.0") [])).
Proof.
  refine (pass_with_cached_version_never_queries (ext := Demo.externals) Demo.element
            (mkWorld {["repos/paper-button/package.json" := "{}"]} (Some "1.0.0") [])
            "1.0.0" _).
  reflexivity.
Defined.

Lemma returned_pass_has_cached {ext : Externals} (element : ElementRepo) (w w1 : World) :
  typescriptPass element w = (Returned tt, w1) →
  ∃ v, latestGeneratorVersion w1 = Some v.
Proof.
  unfold typescriptPass. unfold bind at 1.
  destruct (loadManifest element w) as [[packageJson|e] wl]; [|discriminate].
  unfold bind at 1.
  destruct (getLatestGeneratorVersion wl) as [[v|e] wv] eqn:Hv.
  - destruct (updateManifest_written element packageJson wl wv v Hv)
      as (written & deps & scr & bump & changed & -> & _).
    destruct (resolved_is_stored wl wv v Hv) as [Hstored _].
    intros Hrest. exists v.
    assert (Hruns : runs (updateTravis element;; installAndGenerate element;;
                          commitChanges element bump changed)).
    { apply runs_bind; [apply runs_updateTravis | intros _].
      apply runs_bind; [apply runs_installAndGenerate | intros _].
      apply runs_commitChanges. }
    specialize (Hruns (withFiles
      (<[path_join (dir element) "package.json" := JSON_stringify written]> (files wv))
      (logged (EvWriteJson (path_join (dir element) "package.json") written) wv))).
    rewrite Hrest in Hruns. cbn [snd] in Hruns.
    eapply cached_version_is_kept; [|exact Hruns]. exact Hstored.
  - assert (Hthrown : updateManifest element packageJson wl = (Thrown e, wv)).
    { unfold updateManifest. cbv zeta. apply bind_thrown. exact Hv. }
    rewrite Hthrown. discriminate.
Qed.

(** X8: a pass that returns leaves a version in the cache, and from then on
    in the process run every pass, on any repository and whatever its
    outcome, keeps that version and does not execute the registry query. *)
Theorem later_passes_reuse_the_version {ext : Externals}
    (first second : ElementRepo) (w w1 w2 : World) :
  typescriptPass first w = (Returned tt, w1) →
  run w1 w2 →
  ∃ v, latestGeneratorVersion w1 = Some v
       ∧ latestGeneratorVersion (typescriptPass second w2).2 = Some v
       ∧ queries (trace (typescriptPass second w2).2) = queries (trace w1).
Proof.
  intros Hfirst Hrun. destruct (returned_pass_has_cached first w w1 Hfirst) as [v Hv].
  exists v. split; [exact Hv|].
  apply (cached_version_is_kept w1 _ v Hv).
  eapply run_trans; [exact Hrun | apply runs_typescriptPass].
Qed.

Lemma later_passes_witness :
  ∃ v, latestGeneratorVersion
         (@typescriptPass Demo.externals Demo.element Demo.freshRepo).2 = Some v
       ∧ latestGeneratorVersion
           (@typescriptPass Demo.externals (mkElementRepo "repos/iron-icon" "iron-icon")
              (@typescriptPass Demo.externals Demo.element Demo.freshRepo).2).2 = Some v
       ∧ queries (trace
           (@typescriptPass Demo.externals (mkElementRepo "repos/iron-icon" "iron-icon")
              (@typescriptPass Demo.externals Demo.element Demo.freshRepo).2).2)
         = queries (trace (@typescriptPass Demo.externals Demo.element Demo.freshRepo).2).
Proof.
  refine (later_passes_reuse_the_version (ext := Demo.externals) Demo.element
            (mkElementRepo "repos/iron-icon" "iron-icon") Demo.freshRepo
            (@typescriptPass Demo.externals Demo.element Demo.freshRepo).2
            (@typescriptPass Demo.externals Demo.element Demo.freshRepo).2 _ _).
  - vm_compute. reflexivity.
  - apply run_refl.
Defined.

(** ** What the stages leave on disk *)

Lemma path_join_inj (d name name' : string) :
  path_join d name = path_join d name' → name = name'.
Proof.
  unfold path_join. intros H. apply append_inv_head in H. injection H as H. exact H.
Qed.

Lemma updateTravis_unparsable {ext : Externals} (element : ElementRepo) (w : World)
    (data : string) :
  files w !! path_join (dir element) ".travis.yml" = Some data →
  yaml_safeLoad data = None →
  updateTravis element w
  = (Thrown YAMLException,
     logged (EvReadFile (path_join (dir element) ".travis.yml"))
       (logged (EvPathExists (path_join (dir element) ".travis.yml")) w)).
Proof.
  intros Hf Hy. unfold updateTravis.
  rewrite (bind_returned _ _ _ _ _ (fse_pathExists_run _ _)).
  rewrite bool_decide_eq_true_2 by (rewrite Hf; eauto).
  erewrite bind_returned by (apply fse_readFile_run; exact Hf).
  rewrite Hy. reflexivity.
Qed.

Lemma lock_file_step (file : string) (w : World) :
  (let* present := fse_pathExists file in
   if (present : bool) then fse_remove file else ret tt) w
  = (Returned tt,
     mkWorld (delete file (files w)) (latestGeneratorVersion w)
       (trace w ++ [EvPathExists file]
        ++ if bool_decide (is_Some (files w !! file)) then [EvRemove file] else [])).
Proof.
  rewrite (bind_returned _ _ _ _ _ (fse_pathExists_run _ _)).
  destruct (bool_decide (is_Some (files w !! file))) eqn:Hlock.
  - rewrite fse_remove_run. unfold withFiles, logged.
    cbn [files latestGeneratorVersion trace]. rewrite <- app_assoc. reflexivity.
  - unfold ret, logged. rewrite app_nil_r. f_equal. f_equal. symmetry. apply delete_id.
    apply bool_decide_eq_false in Hlock. apply eq_None_not_Some. exact Hlock.
Qed.

(** ** The loop and the filter, in terms of the paths and lines themselves *)

(** X11: the loop never throws and changes neither files nor cache.
    Started with both flags down and no commit files, it raises
    types-updated exactly when some changed path is a prefix followed by
    [.d.ts], raises CI-updated exactly when [.travis.yml] is among the
    changed paths, and collects exactly the changed paths that end in
    [.d.ts] or are [.travis.yml], [package.json] or [package-lock.json]. *)
Theorem changed_paths_raise_the_flags (element : ElementRepo) (status : list string)
    (w : World) :
  ∃ (c : Changes) (w' : World),
    classifyChanges element status (mkChanges false false []) w = (Returned c, w')
    ∧ files w' = files w
    ∧ latestGeneratorVersion w' = latestGeneratorVersion w
    ∧ (updatedTypes c = true ↔ ∃ pre, In (pre +:+ ".d.ts") status)
    ∧ (updatedTravis c = true ↔ In ".travis.yml" status)
    ∧ ∀ f, In f (commitFiles c) ↔
           In f status
           ∧ ((∃ pre, f = pre +:+ ".d.ts") ∨ f = ".travis.yml"
              ∨ f = "package.json" ∨ f = "package-lock.json").
Proof.
  do 2 eexists. split; [apply classifyChanges_run|].
  cbn [updatedTypes updatedTravis commitFiles orb app].
  split; [reflexivity|]. split; [reflexivity|]. split; [|split].
  - rewrite existsb_exists. split.
    + intros (f & Hf & Hd). apply endsWith_spec in Hd as [pre ->]. eauto.
    + intros [pre Hin]. exists (pre +:+ ".d.ts"). split; [exact Hin|].
      apply endsWith_spec. eauto.
  - rewrite existsb_exists. split.
    + intros (f & Hf & Ht). apply strictEq_true in Ht as ->. exact Hf.
    + intros Hin. exists ".travis.yml". split; [exact Hin | apply strictEq_true; reflexivity].
  - intros f. rewrite filter_In. unfold accepted.
    rewrite !orb_true_iff, !strictEq_true, endsWith_spec. tauto.
Qed.


(** * The pass, stage by stage *)

Section Stages.
Context {ext : Externals}.

Lemma updateTravis_outside_throws (element : ElementRepo) (w : World)
    (data : string) (e : Exn) :
  files w !! path_join (dir element) ".travis.yml" = Some data →
  yaml_safeLoad data = Some (OutsideType (inl e)) →
  updateTravis element w
  = (Thrown e,
     logged (EvReadFile (path_join (dir element) ".travis.yml"))
       (logged (EvPathExists (path_join (dir element) ".travis.yml")) w)).
Proof.
  intros Hf Hy. unfold updateTravis.
  rewrite (bind_returned _ _ _ _ _ (fse_pathExists_run _ _)).
  rewrite bool_decide_eq_true_2 by (rewrite Hf; eauto).
  erewrite bind_returned by (apply fse_readFile_run; exact Hf).
  rewrite Hy. reflexivity.
Qed.

Lemma updateTravis_outside_writes (element : ElementRepo) (w : World)
    (data text : string) :
  files w !! path_join (dir element) ".travis.yml" = Some data →
  yaml_safeLoad data = Some (OutsideType (inr text)) →
  updateTravis element w
  = (Returned tt,
     withFiles (<[path_join (dir element) ".travis.yml" := text]> (files w))
       (logged (EvWriteFile (path_join (dir element) ".travis.yml") text)
          (logged (EvReadFile (path_join (dir element) ".travis.yml"))
             (logged (EvPathExists (path_join (dir element) ".travis.yml")) w)))).
Proof.
  intros Hf Hy. unfold updateTravis.
  rewrite (bind_returned _ _ _ _ _ (fse_pathExists_run _ _)).
  rewrite bool_decide_eq_true_2 by (rewrite Hf; eauto).
  erewrite bind_returned by (apply fse_readFile_run; exact Hf).
  rewrite Hy, fse_writeFile_run. reflexivity.
Qed.

(** The install stage followed by anything: the three ways it can go. *)
Lemma installAndGenerate_then {A : Type} (element : ElementRepo) (rest : M A) (w : World) :
  let packageLockPath := path_join (dir element) "package-lock.json" in
  let cwd := Some (dir element) in
  let installing :=
    trace w ++ [EvPathExists packageLockPath]
            ++ (if bool_decide (is_Some (files w !! packageLockPath))
                then [EvRemove packageLockPath] else [])
            ++ [EvExecFile "npm" ["install"] cwd] in
  let generating := installing ++ [EvExecFile "npm" ["run"; "update-types"] cwd] in
  (installAndGenerate element;; rest) w
  = match execFile "npm" ["install"] cwd (delete packageLockPath (files w)) with
    | (inl message, leftover) =>
        (Thrown (ChildProcessError message),
         mkWorld leftover (latestGeneratorVersion w) installing)
    | (inr _, installed) =>
        match execFile "npm" ["run"; "update-types"] cwd installed with
        | (inl message, leftover) =>
            (Thrown (ChildProcessError message),
             mkWorld leftover (latestGeneratorVersion w) generating)
        | (inr _, generated) =>
            rest (mkWorld generated (latestGeneratorVersion w) generating)
        end
    end.
Proof.
  intros packageLockPath cwd installing generating.
  pose proof (lock_file_step packageLockPath w) as Hlock.
  unfold installAndGenerate. fold packageLockPath. fold cwd.
  unfold bind at 1. unfold bind at 1. unfold bind at 1. unfold bind at 1 in Hlock.
  destruct (fse_pathExists packageLockPath w) as [[present|e] wp]; [|discriminate].
  rewrite Hlock.
  destruct (execFile "npm" ["install"] cwd (delete packageLockPath (files w)))
    as [[message|out] installed] eqn:Hi.
  { erewrite bind_thrown; [|apply execFilePromise_rejects; exact Hi].
    unfold withFiles, logged. cbn [files latestGeneratorVersion trace].
    subst installing. rewrite <- !app_assoc. reflexivity. }
  erewrite bind_returned; [|apply execFilePromise_resolves; exact Hi].
  destruct (execFile "npm" ["run"; "update-types"] cwd installed)
    as [[message|out'] generated] eqn:Hg.
  { erewrite bind_thrown; [|apply execFilePromise_rejects; exact Hg].
    unfold withFiles, logged. cbn [files latestGeneratorVersion trace].
    subst generating installing. rewrite <- !app_assoc. reflexivity. }
  erewrite bind_returned; [|apply execFilePromise_resolves; exact Hg].
  unfold ret, withFiles, logged. cbn [files latestGeneratorVersion trace].
  subst generating installing. rewrite <- !app_assoc. reflexivity.
Qed.

(** The last stage once the status is read. *)
Lemma commitChanges_resolved (element : ElementRepo)
    (majorVersionBump updatedNpmScript : bool) (w : World) (status : list string) :
  getStatus element (files w) = inr status →
  commitChanges element majorVersionBump updatedNpmScript w
  = if existsb (fun f => JsString.endsWith f ".d.ts") status
       || majorVersionBump || updatedNpmScript
       || existsb (fun f => JsString.strictEq f ".travis.yml") status
    then
      (match commitRejection element (List.filter accepted status) commitMessage (files w)
       with
       | Some reason => Thrown (GitError reason)
       | None => Returned tt
       end,
       mkWorld (files w) (latestGeneratorVersion w)
         (trace w ++ [EvGetStatus]
          ++ map (unexpectedLine element) (List.filter (fun f => negb (accepted f)) status)
          ++ [EvMakeCommit (List.filter accepted status) commitMessage]))
    else
      (Returned tt,
       mkWorld (files w) (latestGeneratorVersion w)
         (trace w ++ [EvGetStatus]
          ++ map (unexpectedLine element) (List.filter (fun f => negb (accepted f)) status)
          ++ [EvLog (ghRepo_name element +:+ ": No typings changed.")])).
Proof.
  intros Hs. unfold commitChanges.
  rewrite (bind_returned _ _ _ _ _ (repo_getStatus_resolves element w status Hs)).
  rewrite (bind_returned _ _ _ _ _ (classifyChanges_run element _ _ _)).
  cbn [updatedTypes updatedTravis commitFiles orb app files latestGeneratorVersion
       trace logged].
  destruct (_ || _ || _ || _).
  - rewrite makeCommit_run. unfold logged. cbn [files latestGeneratorVersion trace].
    rewrite <- !app_assoc. reflexivity.
  - unfold console_log, emit, logged. cbn [files latestGeneratorVersion trace].
    rewrite <- !app_assoc. reflexivity.
Qed.

(** The pass is its first stages followed by the last one. *)
Lemma typescriptPass_last_stage (element : ElementRepo) (w0 w : World)
    (majorVersionBump updatedNpmScript : bool) :
  (let* packageJson := loadManifest element in
   let* flags := updateManifest element packageJson in
   updateTravis element;; installAndGenerate element;; ret flags) w0
  = (Returned (majorVersionBump, updatedNpmScript), w) →
  typescriptPass element w0 = commitChanges element majorVersionBump updatedNpmScript w.
Proof.
  unfold typescriptPass. unfold bind at 1. intros H. unfold bind at 1.
  destruct (loadManifest element w0) as [[packageJson|e] wl]; [|discriminate].
  unfold bind at 1 in H. unfold bind at 1.
  destruct (updateManifest element packageJson wl) as [[[bump changed]|e] wm];
    [|discriminate].
  unfold bind at 1 in H. unfold bind at 1.
  destruct (updateTravis element wm) as [[[]|e] wt]; [|discriminate].
  unfold bind at 1 in H. unfold bind at 1.
  destruct (installAndGenerate element wt) as [[[]|e] wi]; [|discriminate].
  unfold ret in H. injection H as -> -> ->. reflexivity.
Qed.

Lemma typescriptPass_install_stage (element : ElementRepo) (w0 w : World)
    (majorVersionBump updatedNpmScript : bool) :
  (let* packageJson := loadManifest element in
   let* flags := updateManifest element packageJson in
   updateTravis element;; ret flags) w0
  = (Returned (majorVersionBump, updatedNpmScript), w) →
  typescriptPass element w0
  = (installAndGenerate element;;
     commitChanges element majorVersionBump updatedNpmScript) w.
Proof.
  unfold typescriptPass. unfold bind at 1. intros H. unfold bind at 1.
  destruct (loadManifest element w0) as [[packageJson|e] wl]; [|discriminate].
  unfold bind at 1 in H. unfold bind at 1.
  destruct (updateManifest element packageJson wl) as [[[bump changed]|e] wm];
    [|discriminate].
  unfold bind at 1 in H. unfold bind at 1.
  destruct (updateTravis element wm) as [[[]|e] wt]; [|discriminate].
  unfold ret in H. injection H as -> -> ->. reflexivity.
Qed.

End Stages.

(** * The commit decision of the pass *)

(** C5: of [typescriptPass], as two implications.  First: when the stages
    before the loop have returned and the status then lists exactly
    [a.d.ts], [.travis.yml] and [package.json] (in any order), the loop ends
    with types-updated and CI-updated both true and all three paths as
    commit files, and the last call of the pass is [makeCommit] with exactly
    those files and the fixed message, whatever the two manifest flags; the
    pass returns unless that commit is rejected.  Second: when the stages
    before the loop have returned with both manifest flags false and the
    status lists only [package.json], the pass makes no commit, logs
    ["<repository>: No typings changed."] and returns. *)
Theorem changed_files_decide_the_commit {ext : Externals} (element : ElementRepo) :
  (∀ (w0 w : World) (majorVersionBump updatedNpmScript : bool) (status : list string),
     (let* packageJson := loadManifest element in
      let* flags := updateManifest element packageJson in
      updateTravis element;; installAndGenerate element;; ret flags) w0
     = (Returned (majorVersionBump, updatedNpmScript), w) →
     getStatus element (files w) = inr status →
     status ≡ₚ ["a.d.ts"; ".travis.yml"; "package.json"] →
     classifyChanges element status (mkChanges false false []) (logged EvGetStatus w)
     = (Returned (mkChanges true true status), logged EvGetStatus w)
     ∧ typescriptPass element w0
       = (match commitRejection element status commitMessage (files w) with
          | Some reason => Thrown (GitError reason)
          | None => Returned tt
          end,
          logged (EvMakeCommit status commitMessage) (logged EvGetStatus w)))
  ∧ (∀ (w0 w : World),
       (let* packageJson := loadManifest element in
        let* flags := updateManifest element packageJson in
        updateTravis element;; installAndGenerate element;; ret flags) w0
       = (Returned (false, false), w) →
       getStatus element (files w) = inr ["package.json"] →
       typescriptPass element w0
       = (Returned tt,
          logged (EvLog (ghRepo_name element +:+ ": No typings changed."))
                 (logged EvGetStatus w))).
Proof.
  split.
  - intros w0 w majorVersionBump updatedNpmScript status Hstages Hstatus Hperm.
    assert (Hall : ∀ x, In x status → accepted x = true).
    { intros x Hx. apply (Permutation_in _ Hperm) in Hx.
      cbn in Hx. destruct Hx as [<-|[<-|[<-|[]]]]; vm_compute; reflexivity. }
    assert (Hd : existsb (fun f => JsString.endsWith f ".d.ts") status = true).
    { apply existsb_exists. exists "a.d.ts". split; [|vm_compute; reflexivity].
      apply (Permutation_in _ (Permutation_sym Hperm)). left. reflexivity. }
    assert (Ht : existsb (fun f => JsString.strictEq f ".travis.yml") status = true).
    { apply existsb_exists. exists ".travis.yml". split; [|vm_compute; reflexivity].
      apply (Permutation_in _ (Permutation_sym Hperm)). right. left. reflexivity. }
    split.
    + rewrite classifyChanges_run. cbn [updatedTypes updatedTravis commitFiles orb app].
      rewrite Hd, Ht, (filter_keeps_all _ _ Hall), (filter_drops_all _ _ Hall).
      cbn [map]. rewrite app_nil_r. reflexivity.
    + rewrite (typescriptPass_last_stage element w0 w _ _ Hstages).
      rewrite (commitChanges_resolved element _ _ w status Hstatus).
      rewrite Hd, (filter_keeps_all _ _ Hall), (filter_drops_all _ _ Hall).
      cbn [orb map app]. unfold logged. cbn [files latestGeneratorVersion trace].
      rewrite <- app_assoc. reflexivity.
  - intros w0 w Hstages Hstatus.
    rewrite (typescriptPass_last_stage element w0 w _ _ Hstages).
    rewrite (commitChanges_resolved element _ _ w _ Hstatus).
    unfold logged. cbn [files latestGeneratorVersion trace].
    rewrite <- app_assoc. reflexivity.
Qed.

Lemma changed_files_witness :
  (classifyChanges Demo.element ["a.d.ts"; ".travis.yml"; "package.json"]
     (mkChanges false false []) (logged EvGetStatus (Demo.beforeLoop Demo.changedCheckout))
   = (Returned (mkChanges true true ["a.d.ts"; ".travis.yml"; "package.json"]),
      logged EvGetStatus (Demo.beforeLoop Demo.changedCheckout))
   ∧ @typescriptPass Demo.externals Demo.element Demo.changedCheckout
     = (Returned tt,
        logged (EvMakeCommit ["a.d.ts"; ".travis.yml"; "package.json"] commitMessage)
               (logged EvGetStatus (Demo.beforeLoop Demo.changedCheckout))))
  ∧ @typescriptPass Demo.externals Demo.element Demo.quietCheckout
    = (Returned tt,
       logged (EvLog "paper-button: No typings changed.")
              (logged EvGetStatus (Demo.beforeLoop Demo.quietCheckout))).
Proof.
  split.
  - refine (proj1 (changed_files_decide_the_commit (ext := Demo.externals) Demo.element)
              Demo.changedCheckout (Demo.beforeLoop Demo.changedCheckout) true true
              ["a.d.ts"; ".travis.yml"; "package.json"] _ _ _).
    + vm_compute. reflexivity.
    + vm_compute. reflexivity.
    + reflexivity.
  - refine (proj2 (changed_files_decide_the_commit (ext := Demo.externals) Demo.element)
              Demo.quietCheckout (Demo.beforeLoop Demo.quietCheckout) _ _).
    + vm_compute. reflexivity.
    + vm_compute. reflexivity.
Defined.

(** C7: of [typescriptPass].  When the stages before the loop have returned
    and the status read lists a path that does not end in [.d.ts] and is none
    of [.travis.yml], [package.json], [package-lock.json], the pass logs
    ["<repository>: Unexpected changed file: <path>"] and the path is in the
    file list of no commit the pass makes: every committed path ends in
    [.d.ts] or is one of the three names.  The path does not make the pass
    fail: the pass returns, unless it makes a commit and that commit is
    rejected. *)
Theorem unexpected_files_are_logged_and_left_out {ext : Externals}
    (element : ElementRepo) (w0 w : World) (majorVersionBump updatedNpmScript : bool)
    (status : list string) (filepath : string) :
  (let* packageJson := loadManifest element in
   let* flags := updateManifest element packageJson in
   updateTravis element;; installAndGenerate element;; ret flags) w0
  = (Returned (majorVersionBump, updatedNpmScript), w) →
  getStatus element (files w) = inr status →
  In filepath status →
  JsString.endsWith filepath ".d.ts" = false →
  filepath ≠ ".travis.yml" →
  filepath ≠ "package.json" →
  filepath ≠ "package-lock.json" →
  ∃ (new : list Event) (outcome : Outcome unit) (w' : World),
    typescriptPass element w0 = (outcome, w')
    ∧ trace w' = trace w ++ new
    ∧ In (EvLog (ghRepo_name element +:+ ": Unexpected changed file: " +:+ filepath)) new
    ∧ (∀ (fileList : list string) (message : string),
         In (EvMakeCommit fileList message) new →
         ¬ In filepath fileList
         ∧ ∀ f, In f fileList →
                JsString.endsWith f ".d.ts" = true ∨ f = ".travis.yml"
                ∨ f = "package.json" ∨ f = "package-lock.json")
    ∧ (outcome = Returned tt
       ∨ ∃ (fileList : list string) (reason : string),
           In (EvMakeCommit fileList commitMessage) new
           ∧ commitRejection element fileList commitMessage (files w) = Some reason
           ∧ outcome = Thrown (GitError reason)).
Proof.
  intros Hstages Hstatus Hin Hd Ht Hp Hl.
  assert (Hacc : accepted filepath = false) by (apply accepted_false; tauto).
  set (logs := map (unexpectedLine element)
                   (List.filter (fun f => negb (accepted f)) status)).
  assert (Hlogged : In (unexpectedLine element filepath) logs).
  { apply in_map, filter_In. split; [exact Hin|]. rewrite Hacc. reflexivity. }
  assert (Hnocommit : ∀ fileList message, ¬ In (EvMakeCommit fileList message) logs).
  { intros fileList message Hc. apply in_map_iff in Hc as (f & Hf & _). discriminate. }
  assert (Hkept : ∀ f, In f (List.filter accepted status) →
            JsString.endsWith f ".d.ts" = true ∨ f = ".travis.yml"
            ∨ f = "package.json" ∨ f = "package-lock.json").
  { intros f Hf. apply filter_In in Hf as [_ Hf]. unfold accepted in Hf.
    rewrite !orb_true_iff, !strictEq_true in Hf. tauto. }
  rewrite (typescriptPass_last_stage element w0 w _ _ Hstages).
  rewrite (commitChanges_resolved element _ _ w status Hstatus). fold logs.
  destruct (_ || _ || _ || _).
  - exists ([EvGetStatus] ++ logs
            ++ [EvMakeCommit (List.filter accepted status) commitMessage]).
    do 2 eexists. split; [reflexivity|].
    split; [reflexivity|].
    split; [apply in_or_app; right; apply in_or_app; left; exact Hlogged|].
    split.
    + intros fileList message Hc.
      apply in_app_or in Hc as [[Hc|[]]|Hc]; [discriminate|].
      apply in_app_or in Hc as [Hc|[Hc|[]]]; [destruct (Hnocommit _ _ Hc)|].
      injection Hc as <- _. split; [|exact Hkept].
      intros Hf. apply filter_In in Hf as [_ Hf]. congruence.
    + destruct (commitRejection element (List.filter accepted status) commitMessage
                  (files w)) as [reason|] eqn:Hrej; [|left; reflexivity].
      right. exists (List.filter accepted status), reason.
      split; [|split; [exact Hrej | reflexivity]].
      apply in_or_app. right. apply in_or_app. right. left. reflexivity.
  - exists ([EvGetStatus] ++ logs
            ++ [EvLog (ghRepo_name element +:+ ": No typings changed.")]).
    do 2 eexists. split; [reflexivity|].
    split; [reflexivity|].
    split; [apply in_or_app; right; apply in_or_app; left; exact Hlogged|].
    split; [|left; reflexivity].
    intros fileList message Hc.
    apply in_app_or in Hc as [[Hc|[]]|Hc]; [discriminate|].
    apply in_app_or in Hc as [Hc|[Hc|[]]]; [destruct (Hnocommit _ _ Hc)|discriminate].
Qed.

Lemma unexpected_files_witness :
  ∃ (new : list Event) (outcome : Outcome unit) (w' : World),
    @typescriptPass Demo.externals Demo.element Demo.strayCheckout = (outcome, w')
    ∧ trace w' = trace (Demo.beforeLoop Demo.strayCheckout) ++ new
    ∧ In (EvLog "paper-button: Unexpected changed file: README.md") new
    ∧ (∀ (fileList : list string) (message : string),
         In (EvMakeCommit fileList message) new →
         ¬ In "README.md" fileList
         ∧ ∀ f, In f fileList →
                JsString.endsWith f ".d.ts" = true ∨ f = ".travis.yml"
                ∨ f = "package.json" ∨ f = "package-lock.json")
    ∧ (outcome = Returned tt
       ∨ ∃ (fileList : list string) (reason : string),
           In (EvMakeCommit fileList commitMessage) new
           ∧ Demo.externals.(commitRejection) Demo.element fileList commitMessage
               (files (Demo.beforeLoop Demo.strayCheckout)) = Some reason
           ∧ outcome = Thrown (GitError reason)).
Proof.
  refine (unexpected_files_are_logged_and_left_out (ext := Demo.externals)
            Demo.element Demo.strayCheckout (Demo.beforeLoop Demo.strayCheckout)
            true true ["a.d.ts"; "README.md"] "README.md" _ _ _ _ _ _ _).
  - vm_compute. reflexivity.
  - vm_compute. reflexivity.
  - right. left. reflexivity.
  - vm_compute. reflexivity.
  - discriminate.
  - discriminate.
  - discriminate.
Defined.

(** * Installing and generating, within the pass *)

(** C8: of [typescriptPass].  When the manifest stage and the CI step have
    returned, the pass checks for the lock file and removes it when it
    exists, so [npm install] runs, in the repository directory, on files
    without a lock file; only when the install resolves does
    [npm run update-types] run, after it in the trace and on the files the
    install left; a rejection of either subprocess is thrown by the pass with
    its message, as the last call of the pass, the files being those the
    rejected command left; when both resolve, the pass goes on with the
    classification and commit decision on the files the generator left. *)
Theorem lock_removed_then_install_then_generate {ext : Externals}
    (element : ElementRepo) (w0 w : World) (majorVersionBump updatedNpmScript : bool) :
  (let* packageJson := loadManifest element in
   let* flags := updateManifest element packageJson in
   updateTravis element;; ret flags) w0
  = (Returned (majorVersionBump, updatedNpmScript), w) →
  let packageLockPath := path_join (dir element) "package-lock.json" in
  let cwd := Some (dir element) in
  let installing :=
    trace w ++ [EvPathExists packageLockPath]
            ++ (if bool_decide (is_Some (files w !! packageLockPath))
                then [EvRemove packageLockPath] else [])
            ++ [EvExecFile "npm" ["install"] cwd] in
  let generating := installing ++ [EvExecFile "npm" ["run"; "update-types"] cwd] in
  delete packageLockPath (files w) !! packageLockPath = None
  ∧ match execFile "npm" ["install"] cwd (delete packageLockPath (files w)) with
    | (inl message, leftover) =>
        typescriptPass element w0
        = (Thrown (ChildProcessError message),
           mkWorld leftover (latestGeneratorVersion w) installing)
    | (inr _, installed) =>
        match execFile "npm" ["run"; "update-types"] cwd installed with
        | (inl message, leftover) =>
            typescriptPass element w0
            = (Thrown (ChildProcessError message),
               mkWorld leftover (latestGeneratorVersion w) generating)
        | (inr _, generated) =>
            typescriptPass element w0
            = commitChanges element majorVersionBump updatedNpmScript
                (mkWorld generated (latestGeneratorVersion w) generating)
        end
    end.
Proof.
  intros Hstages packageLockPath cwd installing generating.
  split; [apply lookup_delete_eq|].
  rewrite (typescriptPass_install_stage element w0 w _ _ Hstages).
  rewrite (installAndGenerate_then element _ w).
  fold packageLockPath. fold cwd. fold installing. fold generating.
  destruct (execFile "npm" ["install"] cwd (delete packageLockPath (files w)))
    as [[message|out] installed]; [reflexivity|].
  destruct (execFile "npm" ["run"; "update-types"] cwd installed)
    as [[message|out'] generated]; reflexivity.
Qed.

Lemma lock_removed_witness :
  (delete "repos/paper-button/package-lock.json"
     (files (Demo.beforeInstall Demo.offlineCheckout))
     !! "repos/paper-button/package-lock.json" = None
   ∧ @typescriptPass Demo.externals Demo.element Demo.offlineCheckout
     = (Thrown (ChildProcessError "npm ERR! network"),
        mkWorld
          (<["npm-debug.log" := "npm ERR! network"]>
             (delete "repos/paper-button/package-lock.json"
                (files (Demo.beforeInstall Demo.offlineCheckout))))
          (Some "1.2.3")
          (trace (Demo.beforeInstall Demo.offlineCheckout)
           ++ [EvPathExists "repos/paper-button/package-lock.json";
               EvRemove "repos/paper-button/package-lock.json";
               EvExecFile "npm" ["install"] (Some "repos/paper-button")])))
  ∧ (delete "repos/paper-button/package-lock.json"
       (files (Demo.beforeInstall Demo.lockedCheckout))
       !! "repos/paper-button/package-lock.json" = None
     ∧ @typescriptPass Demo.externals Demo.element Demo.lockedCheckout
       = @commitChanges Demo.externals Demo.element true true
           (mkWorld
              (delete "repos/paper-button/package-lock.json"
                 (files (Demo.beforeInstall Demo.lockedCheckout)))
              (Some "1.2.3")
              (trace (Demo.beforeInstall Demo.lockedCheckout)
               ++ [EvPathExists "repos/paper-button/package-lock.json";
                   EvRemove "repos/paper-button/package-lock.json";
                   EvExecFile "npm" ["install"] (Some "repos/paper-button");
                   EvExecFile "npm" ["run"; "update-types"] (Some "repos/paper-button")]))).
Proof.
  split.
  - refine (lock_removed_then_install_then_generate (ext := Demo.externals)
              Demo.element Demo.offlineCheckout (Demo.beforeInstall Demo.offlineCheckout)
              true true _).
    vm_compute. reflexivity.
  - refine (lock_removed_then_install_then_generate (ext := Demo.externals)
              Demo.element Demo.lockedCheckout (Demo.beforeInstall Demo.lockedCheckout)
              true true _).
    vm_compute. reflexivity.
Defined.

(** * The cached version, call by call *)



(** * Further properties of the stages *)

(** X6: the last stage, outcome and calls.  When the status read is rejected
    the stage throws that rejection, having made only that call.  Otherwise
    it logs each unexpected path in status order and then makes exactly one
    more call: a commit of the accepted paths, in status order, when a
    changed path ends in [.d.ts], or is [.travis.yml], or one of the manifest
    flags is raised; the "no typings changed" line otherwise.  It throws only
    when the status read or that commit is rejected.  A changed manifest or
    lock file is committed but does not by itself cause a commit, and a
    raised manifest flag causes a commit even of an empty file list. *)
Theorem commit_exactly_when_flagged {ext : Externals}
    (element : ElementRepo) (majorVersionBump updatedNpmScript : bool) (w : World) :
  match getStatus element (files w) with
  | inl message =>
      (commitChanges element majorVersionBump updatedNpmScript w).1
      = Thrown (GitError message)
      ∧ trace (commitChanges element majorVersionBump updatedNpmScript w).2
        = trace w ++ [EvGetStatus]
  | inr status =>
      let flagged :=
        existsb (fun f => JsString.endsWith f ".d.ts") status
        || majorVersionBump || updatedNpmScript
        || existsb (fun f => JsString.strictEq f ".travis.yml") status in
      let kept := List.filter accepted status in
      (commitChanges element majorVersionBump updatedNpmScript w).1
      = (if flagged
         then match commitRejection element kept commitMessage (files w) with
              | Some reason => Thrown (GitError reason)
              | None => Returned tt
              end
         else Returned tt)
      ∧ trace (commitChanges element majorVersionBump updatedNpmScript w).2
        = trace w ++ [EvGetStatus]
          ++ map (unexpectedLine element) (List.filter (fun f => negb (accepted f)) status)
          ++ [(if flagged
               then EvMakeCommit kept commitMessage
               else EvLog (ghRepo_name element +:+ ": No typings changed."))]
  end.
Proof.
  destruct (getStatus element (files w)) as [message|status] eqn:Hs.
  - unfold commitChanges.
    rewrite (bind_thrown _ _ _ _ _ (repo_getStatus_rejects element w message Hs)).
    split; reflexivity.
  - intros flagged kept.
    rewrite (commitChanges_resolved element _ _ w status Hs).
    fold flagged. fold kept. destruct flagged; split; reflexivity.
Qed.



(** X10: nothing is rolled back.  When the manifest stage and the CI step
    have returned and [npm install] is rejected, the pass throws that
    rejection at once: the install was run on files that hold the manifest
    the pass wrote and no lock file, and the files the pass ends with are
    exactly those the rejected install left behind. *)
Theorem rejected_install_keeps_the_written_manifest {ext : Externals}
    (element : ElementRepo) (w0 w wt : World) (flags : bool * bool)
    (message : string) (leftover : gmap string string) :
  (let* packageJson := loadManifest element in updateManifest element packageJson) w0
  = (Returned flags, w) →
  updateTravis element w = (Returned tt, wt) →
  execFile "npm" ["install"] (Some (dir element))
    (delete (path_join (dir element) "package-lock.json") (files wt))
  = (inl message, leftover) →
  ∃ (written : NpmConfig) (w' : World),
    typescriptPass element w0 = (Thrown (ChildProcessError message), w')
    ∧ files w' = leftover
    ∧ In (EvWriteJson (path_join (dir element) "package.json") written) (trace w')
    ∧ last (trace w') = Some (EvExecFile "npm" ["install"] (Some (dir element)))
    ∧ delete (path_join (dir element) "package-lock.json") (files wt)
        !! path_join (dir element) "package.json" = Some (JSON_stringify written)
    ∧ delete (path_join (dir element) "package-lock.json") (files wt)
        !! path_join (dir element) "package-lock.json" = None.
Proof.
  intros Hm Ht Hi.
  assert (Hwritten : ∃ written,
    In (EvWriteJson (path_join (dir element) "package.json") written) (trace w)
    ∧ files w !! path_join (dir element) "package.json" = Some (JSON_stringify written)).
  { unfold bind at 1 in Hm.
    destruct (loadManifest element w0) as [[packageJson|e] wl]; [|discriminate].
    destruct (getLatestGeneratorVersion wl) as [[v|e] wv] eqn:Hv.
    - destruct (updateManifest_written element packageJson wl wv v Hv)
        as (written & deps & scr & bump & changed & Hrun & _).
      rewrite Hrun in Hm. injection Hm as _ <-. exists written. split.
      + cbn [trace withFiles logged]. apply in_or_app. right. left. reflexivity.
      + cbn [files withFiles logged]. apply lookup_insert_eq.
    - assert (Hthrown : updateManifest element packageJson wl = (Thrown e, wv)).
      { unfold updateManifest. cbv zeta. apply bind_thrown. exact Hv. }
      rewrite Hthrown in Hm. discriminate. }
  destruct Hwritten as (written & Hin & Hdisk).
  assert (Hframe : files wt !! path_join (dir element) "package.json"
                   = files w !! path_join (dir element) "package.json"
                   ∧ ∃ more, trace wt = trace w ++ more).
  { destruct (files w !! path_join (dir element) ".travis.yml") as [data|] eqn:Hf.
    - destruct (yaml_safeLoad data) as [[doc|[e0|text]]|] eqn:Hy.
      + rewrite (updateTravis_rewrites element w data doc Hf Hy) in Ht.
        injection Ht as <-. cbn [files trace withFiles logged]. split.
        * apply lookup_insert_ne. intros H. apply path_join_inj in H. discriminate.
        * rewrite <- !app_assoc. eauto.
      + rewrite (updateTravis_outside_throws element w data e0 Hf Hy) in Ht. discriminate.
      + rewrite (updateTravis_outside_writes element w data text Hf Hy) in Ht.
        injection Ht as <-. cbn [files trace withFiles logged]. split.
        * apply lookup_insert_ne. intros H. apply path_join_inj in H. discriminate.
        * rewrite <- !app_assoc. eauto.
      + rewrite (updateTravis_unparsable element w data Hf Hy) in Ht. discriminate.
    - rewrite (updateTravis_missing element w Hf) in Ht. injection Ht as <-.
      cbn [files trace logged]. split; [reflexivity|]. rewrite <- !app_assoc. eauto. }
  destruct Hframe as [Hframe [more Hmore]].
  assert (Hpass : typescriptPass element w0
                  = (installAndGenerate element;;
                     commitChanges element flags.1 flags.2) wt).
  { apply typescriptPass_install_stage. unfold bind at 1 in Hm. unfold bind at 1.
    destruct (loadManifest element w0) as [[packageJson|e] wl]; [|discriminate].
    unfold bind at 1. rewrite Hm. rewrite (bind_returned _ _ _ _ _ Ht).
    destruct flags. reflexivity. }
  rewrite Hpass, (installAndGenerate_then element _ wt), Hi.
  exists written. eexists. split; [reflexivity|].
  cbn [files trace]. split; [reflexivity|]. split; [|split; [|split]].
  - rewrite Hmore, <- !app_assoc. apply in_or_app. left. exact Hin.
  - rewrite !app_assoc. apply last_snoc.
  - rewrite lookup_delete_ne by (intros H; apply path_join_inj in H; discriminate).
    rewrite Hframe. exact Hdisk.
  - apply lookup_delete_eq.
Qed.

Lemma rejected_install_witness :
  ∃ (written : NpmConfig) (w' : World),
    @typescriptPass Demo.externals Demo.element Demo.offlineCheckout
    = (Thrown (ChildProcessError "npm ERR! network"), w')
    ∧ files w'
      = <["npm-debug.log" := "npm ERR! network"]>
          (delete "repos/paper-button/package-lock.json"
             (files (Demo.beforeInstall Demo.offlineCheckout)))
    ∧ In (EvWriteJson "repos/paper-button/package.json" written) (trace w')
    ∧ last (trace w') = Some (EvExecFile "npm" ["install"] (Some "repos/paper-button"))
    ∧ delete "repos/paper-button/package-lock.json"
        (files (Demo.beforeInstall Demo.offlineCheckout))
        !! "repos/paper-button/package.json" = Some (Demo.stringify written)
    ∧ delete "repos/paper-button/package-lock.json"
        (files (Demo.beforeInstall Demo.offlineCheckout))
        !! "repos/paper-button/package-lock.json" = None.
Proof.
  refine (rejected_install_keeps_the_written_manifest (ext := Demo.externals) Demo.element
            Demo.offlineCheckout
            ((let* packageJson := @loadManifest Demo.externals Demo.element in
              @updateManifest Demo.externals Demo.element packageJson)
               Demo.offlineCheckout).2
            (Demo.beforeInstall Demo.offlineCheckout)
            (true, true) "npm ERR! network"
            (<["npm-debug.log" := "npm ERR! network"]>
               (delete "repos/paper-button/package-lock.json"
                  (files (Demo.beforeInstall Demo.offlineCheckout)))) _ _ _).
  - vm_compute. reflexivity.
  - vm_compute. reflexivity.
  - vm_compute. reflexivity.
Defined.

(** X12: one CI-config update of a file that loads to a document of the
    declared type keeps the other keys of the document and writes a
    [before_script] made of the original lines that do not contain
    [update-types] as a substring, in their original order and as many times
    as they occurred, followed by the injected command as last line. *)
Theorem travis_update_keeps_unrelated_lines {ext : Externals}
    (element : ElementRepo) (w : World) (data : string) (doc : TravisYaml) :
  files w !! path_join (dir element) ".travis.yml" = Some data →
  yaml_safeLoad data = Some (Document doc) →
  ∃ (kept : list string) (w' : World),
    updateTravis element w = (Returned tt, w')
    ∧ files w' !! path_join (dir element) ".travis.yml"
      = Some (yaml_safeDump (mkTravisYaml (Some (kept ++ [travisCommand])) (otherKeys doc)))
    ∧ kept = List.filter (fun line => negb (JsString.includes line "update-types"))
               (default [] (before_script doc))
    ∧ (∀ line, negb (JsString.includes line "update-types") = true ↔
               ¬ ∃ pre post, line = pre +:+ "update-types" +:+ post)
    ∧ (∀ line, (¬ ∃ pre post, line = pre +:+ "update-types" +:+ post) →
               length (List.filter (fun l => bool_decide (l = line)) kept)
               = length (List.filter (fun l => bool_decide (l = line))
                           (default [] (before_script doc))))
    ∧ (∀ line, (∃ pre post, line = pre +:+ "update-types" +:+ post) →
               ¬ In line kept)
    ∧ sublist kept (default [] (before_script doc)).
Proof.
  intros Hf Hy. do 2 eexists.
  split; [apply (updateTravis_rewrites element w data doc Hf Hy)|].
  rewrite refreshBeforeScript_lines.
  split; [apply lookup_insert_eq|]. split; [reflexivity|].
  assert (Hread : ∀ line, negb (JsString.includes line "update-types") = true ↔
                          ¬ ∃ pre post, line = pre +:+ "update-types" +:+ post).
  { intros line. rewrite negb_true_iff, <- not_true_iff_false, includes_spec.
    reflexivity. }
  split; [exact Hread|].
  generalize (default [] (before_script doc)). intros lines.
  split; [|split].
  - intros line Hline. apply Hread in Hline.
    induction lines as [|l lines IH]; [reflexivity|]. cbn [List.filter].
    destruct (negb (JsString.includes l "update-types")) eqn:Hl.
    + cbn [List.filter]. destruct (bool_decide (l = line)); cbn [length];
        rewrite IH; reflexivity.
    + destruct (bool_decide (l = line)) eqn:Heq; [|exact IH].
      apply bool_decide_eq_true in Heq. congruence.
  - intros line Hline Hin. apply filter_In in Hin as [_ Hkept].
    apply Hread in Hkept. exact (Hkept Hline).
  - induction lines as [|l lines IH]; [constructor|]. cbn [List.filter].
    destruct (negb (JsString.includes l "update-types"));
      [apply sublist_skip | apply sublist_cons]; exact IH.
Qed.

Lemma travis_update_keeps_witness :
  ∃ (kept : list string) (w' : World),
    @updateTravis Demo.externals Demo.element
      (freshWorld {["repos/paper-button/.travis.yml"
                    := "npm test" +:+ String Demo.newline
                       ("npm run update-types" +:+ String Demo.newline
                        ("npm run lint" +:+ String Demo.newline "npm test"))]})
    = (Returned tt, w')
    ∧ files w' !! "repos/paper-button/.travis.yml"
      = Some (Demo.safeDump (mkTravisYaml (Some (kept ++ [travisCommand])) ∅))
    ∧ kept = List.filter (fun line => negb (JsString.includes line "update-types"))
               ["npm test"; "npm run update-types"; "npm run lint"; "npm test"]
    ∧ (∀ line, negb (JsString.includes line "update-types") = true ↔
               ¬ ∃ pre post, line = pre +:+ "update-types" +:+ post)
    ∧ (∀ line, (¬ ∃ pre post, line = pre +:+ "update-types" +:+ post) →
               length (List.filter (fun l => bool_decide (l = line)) kept)
               = length (List.filter (fun l => bool_decide (l = line))
                           ["npm test"; "npm run update-types"; "npm run lint";
                            "npm test"]))
    ∧ (∀ line, (∃ pre post, line = pre +:+ "update-types" +:+ post) →
               ¬ In line kept)
    ∧ sublist kept ["npm test"; "npm run update-types"; "npm run lint"; "npm test"].
Proof.
  refine (travis_update_keeps_unrelated_lines (ext := Demo.externals) Demo.element
            (freshWorld {["repos/paper-button/.travis.yml"
                          := "npm test" +:+ String Demo.newline
                             ("npm run update-types" +:+ String Demo.newline
                              ("npm run lint" +:+ String Demo.newline "npm test"))]})
            ("npm test" +:+ String Demo.newline
             ("npm run update-types" +:+ String Demo.newline
              ("npm run lint" +:+ String Demo.newline "npm test")))
            (mkTravisYaml
               (Some ["npm test"; "npm run update-types"; "npm run lint"; "npm test"]) ∅)
            _ _).
  - vm_compute. reflexivity.
  - vm_compute. reflexivity.
Defined.
